(** * SchemaSense: the type-inference engine and the DDL generator

    A shallow embedding of [app/services/schema_inference.py],
    [app/services/ddl_generator.py], [app/constants.py] and
    [app/models/schema.py], with the properties of the engine proved
    over it.

    Conventions of the embedding.
    - A Python [str] is a [string]; each [ascii] stands for one code
      point below 256, so [length] is Python's [len].
    - A pandas Series of a CSV column is a list of optional strings
      ([None] is NaN): [csv_parser.py] reads every column with
      [dtype=str].
    - A coerced number is a rational: every finite binary64 value is
      one, and the comparisons the classifier makes are exact on
      them. *)

From Stdlib Require Import String Ascii List Bool Arith ZArith QArith Lia.
From Stdlib Require Import Qround Qabs Lqa DecimalString Permutation.
From Stdlib Require Floats Uint63.
Import ListNotations.

Local Open Scope string_scope.
Local Open Scope nat_scope.

(** ** Python string primitives *)

Module PyStr.

Definition code (c : ascii) : nat := nat_of_ascii c.

Definition between (lo hi : nat) (c : ascii) : bool :=
  (lo <=? code c) && (code c <=? hi).

Definition is_lower (c : ascii) : bool := between 97 122 c.
Definition is_upper (c : ascii) : bool := between 65 90 c.
Definition is_ascii_digit (c : ascii) : bool := between 48 57 c.

(** [str.isdigit] on one code point below 256: the decimal digits
    and the superscripts U+00B2, U+00B3, U+00B9. *)
Definition isdigit (c : ascii) : bool :=
  is_ascii_digit c || (code c =? 178) || (code c =? 179) || (code c =? 185).

(** [str.isspace] on one code point below 256; it is also the class
    [\s] of a [str] pattern. *)
Definition isspace (c : ascii) : bool :=
  between 9 13 c || between 28 32 c || (code c =? 133) || (code c =? 160).

(** [str.lower] and [str.upper] on one code point below 256. Only
    the mappings that stay below 256 are listed; the others (U+00B5,
    U+00DF, U+00FF under [upper]) leave the Latin-1 range and never
    meet an ASCII letter. *)
Definition lower_char (c : ascii) : ascii :=
  if is_upper c || (between 192 222 c && negb (code c =? 215))
  then ascii_of_nat (code c + 32) else c.

Definition upper_char (c : ascii) : ascii :=
  if is_lower c || (between 224 254 c && negb (code c =? 247))
  then ascii_of_nat (code c - 32) else c.

Fixpoint map_chars (f : ascii -> ascii) (s : string) : string :=
  match s with
  | EmptyString => EmptyString
  | String c r => String (f c) (map_chars f r)
  end.

Definition lower (s : string) : string := map_chars lower_char s.

Fixpoint all_chars (p : ascii -> bool) (s : string) : bool :=
  match s with
  | EmptyString => true
  | String c r => p c && all_chars p r
  end.

(** The slice [s[:n]]. *)
Fixpoint take (n : nat) (s : string) : string :=
  match n, s with
  | S m, String c r => String c (take m r)
  | _, _ => EmptyString
  end.

Fixpoint lstrip (s : string) : string :=
  match s with
  | String c r => if isspace c then lstrip r else s
  | EmptyString => EmptyString
  end.

Fixpoint rstrip (s : string) : string :=
  match s with
  | EmptyString => EmptyString
  | String c r =>
      match rstrip r with
      | EmptyString => if isspace c then EmptyString else String c EmptyString
      | r' => String c r'
      end
  end.

(** [str.strip()] with no argument. *)
Definition strip (s : string) : string := rstrip (lstrip s).

(** [s.replace(old, new)] for a one-character [old]. *)
Fixpoint replace_char (old : ascii) (new : string) (s : string) : string :=
  match s with
  | EmptyString => EmptyString
  | String c r =>
      if Ascii.eqb c old then new ++ replace_char old new r
      else String c (replace_char old new r)
  end.

Fixpoint starts_with (p s : string) : bool :=
  match p, s with
  | EmptyString, _ => true
  | String a p', String b s' => Ascii.eqb a b && starts_with p' s'
  | String _ _, EmptyString => false
  end.

(** [sub in s]. *)
Fixpoint contains (sub s : string) : bool :=
  starts_with sub s ||
  match s with
  | EmptyString => false
  | String _ r => contains sub r
  end.

Definition nonempty (s : string) : bool :=
  match s with EmptyString => false | String _ _ => true end.

(** [x in xs] for a collection of strings. *)
Definition mem (x : string) (xs : list string) : bool :=
  existsb (String.eqb x) xs.

Definition nl : string := String (ascii_of_nat 10) EmptyString.

Definition str_of_nat (n : nat) : string :=
  NilZero.string_of_uint (Nat.to_uint n).

Definition str_of_Z (z : Z) : string :=
  NilZero.string_of_int (Z.to_int z).

End PyStr.

(** ** [app/models/schema.py] *)

Record ColumnAnalysis : Type := mkColumnAnalysis {
  name : string;
  data_type : string;
  mysql_type : string;
  sample_values : list string;
  null_count : nat;
  unique_count : nat;
  total_count : nat;
  null_percentage : Q;
  description : string;
  cleaning_recommendations : list string
}.

(** ** [app/services/ddl_generator.py] *)

Module DDLGenerator.
Import PyStr.

Definition reserved_words : list string :=
  [ "select"; "insert"; "update"; "delete"; "from"; "where"; "join";
    "inner"; "outer"; "left"; "right"; "on"; "order"; "by"; "group";
    "having"; "union"; "create"; "table"; "index"; "key"; "primary";
    "foreign"; "references"; "constraint"; "alter"; "drop"; "database";
    "schema"; "view"; "procedure"; "function"; "trigger"; "user";
    "grant"; "revoke"; "commit"; "rollback"; "transaction" ].

(** The class [[a-zA-Z0-9_]]. *)
Definition is_ident_char (c : ascii) : bool :=
  is_lower c || is_upper c || is_ascii_digit c || (code c =? 95).

(** [re.sub(r'[^a-zA-Z0-9_]', '_', s)]. *)
Definition sub_invalid (s : string) : string :=
  map_chars (fun c => if is_ident_char c then c else "_"%char) s.

Definition _sanitize_identifier (name : string) : string :=
  if negb (nonempty name) then "unnamed_column"
  else
    let sanitized := sub_invalid name in
    let sanitized :=
      match sanitized with
      | String c _ => if isdigit c then "col_" ++ sanitized else sanitized
      | EmptyString => sanitized
      end in
    if negb (nonempty sanitized) then "unnamed_column"
    else if 64 <? String.length sanitized
         then take 61 sanitized ++ "_tr"
         else sanitized.

Definition _generate_column_definition (column : ColumnAnalysis) : string :=
  let clean_name := _sanitize_identifier (name column) in
  let clean_name :=
    if mem (lower clean_name) reserved_words
    then clean_name ++ "_col" else clean_name in
  let nullable := if 0 <? null_count column then "NULL" else "NOT NULL" in
  let comment :=
    if nonempty (description column)
    then "COMMENT '" ++ take 100 (replace_char "'"%char "\'" (description column)) ++ "'"
    else "" in
  let parts :=
    [ "    `" ++ clean_name ++ "`"; mysql_type column; nullable; comment ] in
  String.concat " " (filter nonempty parts).

Definition generate_ddl (table_name : string) (columns : list ColumnAnalysis)
  : string :=
  let clean_table_name := _sanitize_identifier table_name in
  let column_definitions := map _generate_column_definition columns in
  let ddl_parts :=
    [ "CREATE TABLE `" ++ clean_table_name ++ "` (";
      String.concat ("," ++ nl) column_definitions;
      ") ENGINE=InnoDB DEFAULT CHARSET=utf8mb4 COLLATE=utf8mb4_unicode_ci;" ] in
  String.concat nl ddl_parts.

End DDLGenerator.

(** ** Regular expressions, as [re.match] reads them

    The seven patterns of [constants.py] use literals, character
    classes, bounded and unbounded repetition of a class, optional
    groups, alternation and the anchors [^] and [$]. The matcher is a
    backtracking one in continuation style: [k] receives what is left
    of the subject, and whether the position is still the start. *)

Module Regex.
Import PyStr.

Inductive regex : Type :=
| Eps
| Bos                                   (* ^ *)
| Eos                                   (* $ *)
| Class (p : ascii -> bool)             (* [...] or an escape such as \d *)
| Seq (a b : regex)
| Alt (a b : regex)
| Opt (a : regex)                       (* (...)? *)
| Rep (p : ascii -> bool) (lo : nat) (hi : option nat).  (* [...]{lo,hi} *)

Definition chr (c : ascii) : regex := Class (Ascii.eqb c).

Fixpoint lit (s : string) : regex :=
  match s with
  | EmptyString => Eps
  | String c r => Seq (chr c) (lit r)
  end.

Fixpoint seqs (rs : list regex) : regex :=
  match rs with
  | [] => Eps
  | r :: rs' => Seq r (seqs rs')
  end.

Fixpoint alts (rs : list regex) : regex :=
  match rs with
  | [] => Class (fun _ => false)
  | [r] => r
  | r :: rs' => Alt r (alts rs')
  end.

(** Membership in a class under [re.IGNORECASE]: the character or
    one of its case variants is in the class. *)
Definition in_class (icase : bool) (p : ascii -> bool) (c : ascii) : bool :=
  p c || (icase && (p (lower_char c) || p (upper_char c))).

(** [$] without [re.MULTILINE]: the end of the subject, or just
    before a newline that ends it. *)
Definition at_end (s : string) : bool :=
  match s with
  | EmptyString => true
  | String c EmptyString => code c =? 10
  | _ => false
  end.

Definition more (hi : option nat) : bool :=
  match hi with Some 0 => false | _ => true end.

Fixpoint rep_class (icase : bool) (p : ascii -> bool) (lo : nat)
    (hi : option nat) (bol : bool) (s : string)
    (k : bool -> string -> bool) {struct s} : bool :=
  ((lo =? 0) && k bol s) ||
  match s with
  | EmptyString => false
  | String c r =>
      more hi && in_class icase p c &&
      rep_class icase p (pred lo) (option_map pred hi) false r k
  end.

Fixpoint run (icase : bool) (r : regex) (bol : bool) (s : string)
    (k : bool -> string -> bool) {struct r} : bool :=
  match r with
  | Eps => k bol s
  | Bos => bol && k bol s
  | Eos => at_end s && k bol s
  | Class p =>
      match s with
      | String c t => in_class icase p c && k false t
      | EmptyString => false
      end
  | Seq a b => run icase a bol s (fun bol' s' => run icase b bol' s' k)
  | Alt a b => run icase a bol s k || run icase b bol s k
  | Opt a => run icase a bol s k || k bol s
  | Rep p lo hi => rep_class icase p lo hi bol s k
  end.

(** [re.match(pattern, s, flags)]: a match that starts at position 0
    and may end anywhere. *)
Definition re_match (icase : bool) (r : regex) (s : string) : bool :=
  run icase r true s (fun _ _ => true).

(** [re.search(pattern, s)]: a match that starts anywhere. *)
Fixpoint search_from (icase : bool) (r : regex) (bol : bool) (s : string)
  : bool :=
  run icase r bol s (fun _ _ => true) ||
  match s with
  | EmptyString => false
  | String _ t => search_from icase r false t
  end.

Definition re_search (icase : bool) (r : regex) (s : string) : bool :=
  search_from icase r true s.

(** Character classes of the patterns. *)
Definition one_of (cs : string) (c : ascii) : bool :=
  existsb (Ascii.eqb c) (list_ascii_of_string cs).
Definition alpha (c : ascii) : bool := is_lower c || is_upper c.
Definition digit (c : ascii) : bool := is_ascii_digit c.   (* \d *)
Definition space (c : ascii) : bool := isspace c.          (* \s *)
Definition hex_lower (c : ascii) : bool := digit c || between 97 102 c.
Definition dot (c : ascii) : bool := negb (code c =? 10).  (* . *)

End Regex.

(** ** [app/constants.py] *)

Module Constants.
Import PyStr Regex.

(* ^[a-zA-Z0-9._%+-]+@[a-zA-Z0-9.-]+\.[a-zA-Z]{2,}$ *)
Definition email_re : regex :=
  seqs [ Bos;
         Rep (fun c => alpha c || digit c || one_of "._%+-" c) 1 None;
         chr "@";
         Rep (fun c => alpha c || digit c || one_of ".-" c) 1 None;
         chr ".";
         Rep alpha 2 None;
         Eos ].

(* ^[\+]?[\d\s\-\(\)\.]{7,20}$ *)
Definition phone_re : regex :=
  seqs [ Bos;
         Rep (one_of "+") 0 (Some 1);
         Rep (fun c => digit c || space c || one_of "-()." c) 7 (Some 20);
         Eos ].

(* ^https?://[^\s]+$ *)
Definition url_re : regex :=
  seqs [ Bos; lit "http"; Rep (one_of "s") 0 (Some 1); lit "://";
         Rep (fun c => negb (space c)) 1 None; Eos ].

(* ^\d{4}-\d{2}-\d{2}|\d{2}[/\-]\d{2}[/\-]\d{4}|\d{1,2}[/\-]\d{1,2}[/\-]\d{2,4}$
   The alternation is at top level: [^] belongs to the first branch
   only and [$] to the last one only. *)
Definition date_re : regex :=
  alts [ seqs [ Bos; Rep digit 4 (Some 4); chr "-"; Rep digit 2 (Some 2);
                chr "-"; Rep digit 2 (Some 2) ];
         seqs [ Rep digit 2 (Some 2); Class (one_of "/-");
                Rep digit 2 (Some 2); Class (one_of "/-");
                Rep digit 4 (Some 4) ];
         seqs [ Rep digit 1 (Some 2); Class (one_of "/-");
                Rep digit 1 (Some 2); Class (one_of "/-");
                Rep digit 2 (Some 4); Eos ] ].

(* ^\d{1,2}:\d{2}(:\d{2})?(\s?(AM|PM|am|pm))?$ *)
Definition time_re : regex :=
  seqs [ Bos; Rep digit 1 (Some 2); chr ":"; Rep digit 2 (Some 2);
         Opt (Seq (chr ":") (Rep digit 2 (Some 2)));
         Opt (Seq (Rep space 0 (Some 1))
                  (alts [lit "AM"; lit "PM"; lit "am"; lit "pm"]));
         Eos ].

(* ^(true|false|yes|no|y|n|1|0|t|f)$ *)
Definition boolean_re : regex :=
  seqs [ Bos;
         alts [ lit "true"; lit "false"; lit "yes"; lit "no"; lit "y";
                lit "n"; lit "1"; lit "0"; lit "t"; lit "f" ];
         Eos ].

(* ^[0-9a-f]{8}-[0-9a-f]{4}-[0-9a-f]{4}-[0-9a-f]{4}-[0-9a-f]{12}$ *)
Definition uuid_re : regex :=
  seqs [ Bos; Rep hex_lower 8 (Some 8); chr "-"; Rep hex_lower 4 (Some 4);
         chr "-"; Rep hex_lower 4 (Some 4); chr "-";
         Rep hex_lower 4 (Some 4); chr "-"; Rep hex_lower 12 (Some 12);
         Eos ].

(** The dict keeps its insertion order, which is the order of
    iteration. *)
Definition TYPE_PATTERNS : list (string * regex) :=
  [ ("email", email_re); ("phone", phone_re); ("url", url_re);
    ("date", date_re); ("time", time_re); ("boolean", boolean_re);
    ("uuid", uuid_re) ].

End Constants.

(** ** The pandas operations the engine calls

    [pd.to_numeric(errors='coerce')] and the text pandas prints for a
    float are library code. The engine is written over this interface:
    what is proved for every instance holds whatever the library does
    on a given cell. *)

Module Pandas.

Class Numeric : Type := {
  (** [pd.to_numeric(series, errors='coerce')] on one cell: the
      number read, or [None] for the NaN of a cell that is not one.
      pandas parses cell by cell; the common dtype it then picks can
      only round an integer beyond 2^53 to binary64, which keeps the
      order of the values and every bound the classifier compares
      them with, so the number of a cell is taken not to depend on
      the other cells. *)
  to_numeric : string -> option Q;
  (** [series.astype(str).str.split('.').str[1].str.len()] on one
      number: how many characters its text has after the first
      point, or [None] (NaN) when the text has no point. *)
  decimal_places : Q -> option nat
}.

Definition dropna {A : Type} (xs : list (option A)) : list A :=
  flat_map (fun x => match x with Some a => [a] | None => [] end) xs.

Definition notnull {A : Type} (x : option A) : bool :=
  match x with Some _ => true | None => false end.

(** [mask.sum()]: the number of entries at which [p] holds. *)
Definition count {A : Type} (p : A -> bool) (xs : list A) : nat :=
  length (filter p xs).

(** [Series.min()] and [Series.max()]; NaN ([None]) on an empty
    series. *)
Definition qmin (a b : Q) : Q := if Qle_bool a b then a else b.
Definition qmax (a b : Q) : Q := if Qle_bool a b then b else a.

Definition series_min (xs : list Q) : option Q :=
  match xs with
  | [] => None
  | x :: r => Some (fold_left qmin r x)
  end.

Definition series_max (xs : list Q) : option Q :=
  match xs with
  | [] => None
  | x :: r => Some (fold_left qmax r x)
  end.

Definition max_nat (xs : list nat) : option nat :=
  match xs with
  | [] => None
  | x :: r => Some (fold_left Nat.max r x)
  end.

(** Comparisons of a scalar that may be NaN with a constant: every
    comparison with NaN is false. *)
Definition ge_q (x : option Q) (b : Z) : bool :=
  match x with Some v => Qle_bool (inject_Z b) v | None => false end.
Definition le_q (x : option Q) (b : Z) : bool :=
  match x with Some v => Qle_bool v (inject_Z b) | None => false end.
Definition le_n (x : option nat) (b : nat) : bool :=
  match x with Some v => v <=? b | None => false end.
Definition gt_n (x : option nat) (b : nat) : bool :=
  match x with Some v => b <? v | None => false end.

(** [x % 1 == 0]. *)
Definition is_integral (x : Q) : bool :=
  (Z.pos (Qden (Qred x)) =? 1)%Z.

(** [Series.nunique()] of a series without NaN. *)
Definition nunique (xs : list string) : nat :=
  length (nodup string_dec xs).

Fixpoint insert_sorted (x : Q) (xs : list Q) : list Q :=
  match xs with
  | [] => [x]
  | y :: r => if Qle_bool x y then x :: xs else y :: insert_sorted x r
  end.

Definition sort_values (xs : list Q) : list Q :=
  fold_right insert_sorted [] xs.

(** [Series.quantile(num/den)] with the default linear
    interpolation: the position [(n - 1) * q] in the sorted values,
    interpolated between its two neighbours. *)
Definition quantile (num den : Z) (xs : list Q) : Q :=
  let sorted := sort_values xs in
  let pos := (inject_Z (Z.of_nat (length xs - 1)) * (num # Z.to_pos den))%Q in
  let lo := Z.to_nat (Qfloor pos) in
  let frac := (pos - inject_Z (Qfloor pos))%Q in
  let a := nth lo sorted 0%Q in
  let b := nth (S lo) sorted a in
  (a + (b - a) * frac)%Q.

(** Rounding to the nearest integer, ties to even, as Python's
    [round] and [format] do. *)
Definition round_half_even (q : Q) : Z :=
  let f := Qfloor q in
  match Qcompare (q - inject_Z f) (1 # 2) with
  | Lt => f
  | Gt => (f + 1)%Z
  | Eq => if Z.even f then f else (f + 1)%Z
  end.

(** [f"{q:.1f}"]. *)
Definition fmt1 (q : Q) : string :=
  let r := round_half_even (Qabs q * inject_Z 10) in
  (if Qlt_le_dec q 0 then "-" else "") ++
  PyStr.str_of_Z (r / 10) ++ "." ++ PyStr.str_of_Z (r mod 10).

(** [round(q, 2)]. *)
Definition round2 (q : Q) : Q :=
  (round_half_even (q * inject_Z 100) # 100)%Q.

(** [count / total * 100]. *)
Definition percent (count total : nat) : Q :=
  ((Z.of_nat count # Pos.of_nat total) * inject_Z 100)%Q.

Definition is_nil {A : Type} (xs : list A) : bool :=
  match xs with [] => true | _ => false end.

End Pandas.

(** ** [app/services/schema_inference.py] *)

Module SchemaInferenceEngine.
Import PyStr Regex Pandas.

(** A column as the parser hands it over: its header and its cells,
    [None] for a cell that holds one of the null tokens. *)
Record Series : Type := mkSeries {
  series_name : string;
  cells : list (option string)
}.

Section Engine.
Context {lib : Numeric}.

Definition type_patterns : list (string * regex) := Constants.TYPE_PATTERNS.

(** [matches > total_count * 0.8]. The product is a binary64
    number; it is never below [4 * total_count / 5] and exceeds it
    by less than one, so for an integer [matches] the test is
    [5 * matches > 4 * total_count] ([FloatModel] checks the
    agreement on an initial range). *)
Definition above_threshold (matches total_count : nat) : bool :=
  4 * total_count <? 5 * matches.

Fixpoint detect_in (patterns : list (string * regex))
    (str_series : list string) : option string :=
  match patterns with
  | [] => None
  | (pattern_name, pattern) :: rest =>
      let matches := count (re_match true pattern) str_series in
      if above_threshold matches (length str_series)
      then Some pattern_name
      else detect_in rest str_series
  end.

(** The [except re.error] branch is not modelled: the seven
    patterns compile. *)
Definition _detect_patterns (str_series : list string) : option string :=
  detect_in type_patterns str_series.

Definition _classify_integer_type (series : list Q) : string * string :=
  let min_val := series_min series in
  let max_val := series_max series in
  if ge_q min_val 0 then
    if le_q max_val 255 then ("tinyint_unsigned", "TINYINT UNSIGNED")
    else if le_q max_val 65535 then ("smallint_unsigned", "SMALLINT UNSIGNED")
    else if le_q max_val 4294967295 then ("int_unsigned", "INT UNSIGNED")
    else ("bigint_unsigned", "BIGINT UNSIGNED")
  else
    if ge_q min_val (-128) && le_q max_val 127 then ("tinyint", "TINYINT")
    else if ge_q min_val (-32768) && le_q max_val 32767
         then ("smallint", "SMALLINT")
    else if ge_q min_val (-2147483648) && le_q max_val 2147483647
         then ("int", "INT")
    else ("bigint", "BIGINT").

(** [decimal_places.max()] skips NaN and is NaN when nothing is
    left. No operation of the [try] block fails in this model, so
    its [except] branch, which returns the first answer below, is
    not reached. *)
Definition _classify_decimal_type (series : list Q) : string * string :=
  let places := map decimal_places series in
  let max_decimal_places := max_nat (dropna places) in
  match max_decimal_places with
  | None => ("decimal", "DECIMAL(15,4)")
  | Some m =>
      if m <=? 4 then ("decimal", "DECIMAL(15,4)")
      else if m <=? 6 then ("decimal", "DECIMAL(20,6)")
      else ("float", "FLOAT")
  end.

(** [valid_numeric.sum() < len(series) * 0.9]. As above, the
    binary64 product equals [9 * len / 10] whenever that is an
    integer and is otherwise closer to it than any integer, so the
    test is [10 * valid < 9 * len]. *)
Definition below_numeric_threshold (valid len : nat) : bool :=
  10 * valid <? 9 * len.

(** With [errors='coerce'] no operation of the [try] block fails, so
    its [except] branch, which returns [None], is not reached. *)
Definition _detect_numeric_types (series : list string)
  : option (string * string) :=
  let numeric_series := map to_numeric series in
  let valid_numeric := count notnull numeric_series in
  if below_numeric_threshold valid_numeric (length series) then None
  else
    let valid_numbers := dropna numeric_series in
    if forallb is_integral valid_numbers
    then Some (_classify_integer_type valid_numbers)
    else Some (_classify_decimal_type valid_numbers).

Definition _analyze_string_type (str_series : list string)
  : string * string :=
  let max_length := max_nat (map String.length str_series) in
  match max_length with
  | None => ("long_string", "LONGTEXT")
  | Some max_length =>
      if max_length <=? 10 then
        let size := Nat.min 50 (max_length + 10) in
        ("short_string", "VARCHAR(" ++ str_of_nat size ++ ")")
      else if max_length <=? 100 then
        let size := Nat.min 255 (max_length + 20) in
        ("string", "VARCHAR(" ++ str_of_nat size ++ ")")
      else if max_length <=? 255 then ("string", "VARCHAR(255)")
      else if max_length <=? 1000 then ("medium_string", "TEXT")
      else ("long_string", "LONGTEXT")
  end.

Definition type_mapping : list (string * string) :=
  [ ("email", "VARCHAR(100)"); ("phone", "VARCHAR(25)");
    ("url", "VARCHAR(500)"); ("date", "DATE"); ("time", "TIME");
    ("boolean", "BOOLEAN"); ("uuid", "CHAR(36)") ].

Fixpoint dict_get (d : list (string * string)) (key default : string)
  : string :=
  match d with
  | [] => default
  | (k, v) :: r => if String.eqb k key then v else dict_get r key default
  end.

Definition _get_mysql_type_for_pattern (pattern_name : string) : string :=
  dict_get type_mapping pattern_name "TEXT".

Definition _infer_types (series : list (option string)) : string * string :=
  let non_null_series := dropna series in
  if length non_null_series =? 0 then ("unknown", "TEXT")
  else
    let str_series := map strip non_null_series in
    match _detect_patterns str_series with
    | Some pattern_type =>
        (pattern_type, _get_mysql_type_for_pattern pattern_type)
    | None =>
        match _detect_numeric_types non_null_series with
        | Some numeric_type => numeric_type
        | None => _analyze_string_type str_series
        end
    end.

(** [str_series.equals(trimmed)]. *)
Fixpoint series_equals (xs ys : list string) : bool :=
  match xs, ys with
  | [], [] => true
  | x :: xs', y :: ys' => String.eqb x y && series_equals xs' ys'
  | _, _ => false
  end.

Definition _analyze_string_quality (series : list string) : list string :=
  let str_series := series in
  let trimmed := map strip str_series in
  let r1 :=
    if negb (series_equals str_series trimmed)
    then ["Leading/trailing whitespace detected - consider trimming"]
    else [] in
  let r2 :=
    if negb (nunique str_series =? nunique (map lower str_series))
    then ["Inconsistent casing detected - standardize case if needed"]
    else [] in
  let max_len := max_nat (map String.length str_series) in
  let r3 :=
    if gt_n max_len 1000
    then ["Very long text values detected - consider TEXT type or truncation"]
    else [] in
  let empty_count := count (String.eqb "") str_series in
  let r4 :=
    if 0 <? empty_count then
      let empty_pct := percent empty_count (length str_series) in
      ["Empty strings detected (" ++ fmt1 empty_pct
         ++ "%) - standardize with nulls"]
    else [] in
  r1 ++ r2 ++ r3 ++ r4.

Definition qlt_bool (a b : Q) : bool := negb (Qle_bool b a).

(** [Series.min()] and [Series.max()] of a series known not to be
    empty. *)
Definition min_of (xs : list Q) : Q :=
  match series_min xs with Some v => v | None => 0%Q end.
Definition max_of (xs : list Q) : Q :=
  match series_max xs with Some v => v | None => 0%Q end.

(** The arithmetic is the exact one; no operation of the [try]
    block fails in this model, so its [except] branch, which
    reports numeric parsing issues, is not reached. *)
Definition _analyze_numeric_quality (series : list string) : list string :=
  let numeric_series := dropna (map to_numeric series) in
  if length numeric_series =? 0 then []
  else
    let Q1 := quantile 1 4 numeric_series in
    let Q3 := quantile 3 4 numeric_series in
    let IQR := (Q3 - Q1)%Q in
    let r1 :=
      if qlt_bool 0 IQR then
        let lower_bound := (Q1 - (3 # 2) * IQR)%Q in
        let upper_bound := (Q3 + (3 # 2) * IQR)%Q in
        let outliers :=
          filter (fun v => qlt_bool v lower_bound || qlt_bool upper_bound v)
                 numeric_series in
        if 0 <? length outliers then
          let outlier_pct :=
            percent (length outliers) (length numeric_series) in
          ["Statistical outliers detected (" ++ fmt1 outlier_pct
             ++ "%) - review extreme values"]
        else []
      else [] in
    let value_range := (max_of numeric_series - min_of numeric_series)%Q in
    let r2 :=
      if Qeq_bool value_range 0
      then ["All numeric values are identical - consider constant handling"]
      else [] in
    r1 ++ r2.

(* @.*@ *)
Definition two_ats : regex :=
  seqs [chr "@"; Rep dot 0 None; chr "@"].

(** [lengths.std() > 2]: the sample variance (ddof = 1) is above 4;
    with fewer than two values the deviation is NaN and the test is
    false. *)
Definition std_above_2 (lengths : list nat) : bool :=
  let n := length lengths in
  if n <? 2 then false
  else
    let xs := map (fun l => inject_Z (Z.of_nat l)) lengths in
    let total := fold_left Qplus xs 0%Q in
    let mean := (total / inject_Z (Z.of_nat n))%Q in
    let sq := fold_left Qplus (map (fun x => (x - mean) * (x - mean))%Q xs) 0%Q in
    qlt_bool 4 (sq / inject_Z (Z.of_nat (n - 1)))%Q.

Definition _analyze_pattern_quality (series : list string)
    (pattern_type : string) : list string :=
  if String.eqb pattern_type "email" then
    if existsb (re_search false two_ats) series
    then ["Multiple @ symbols detected in some email addresses"]
    else []
  else if String.eqb pattern_type "phone" then
    if std_above_2 (map String.length series)
    then ["Inconsistent phone number formats - consider standardization"]
    else []
  else [].

Definition _generate_cleaning_recommendations
    (series : list (option string)) (data_type : string)
    (null_percentage : Q) : list string :=
  let recommendations :=
    if qlt_bool 50 null_percentage then
      ["High null rate (" ++ fmt1 null_percentage
         ++ "%) - evaluate column necessity"]
    else if qlt_bool 20 null_percentage then
      ["Significant null rate (" ++ fmt1 null_percentage
         ++ "%) - implement null handling strategy"]
    else if qlt_bool 5 null_percentage then
      ["Moderate null rate (" ++ fmt1 null_percentage
         ++ "%) - consider default values"]
    else [] in
  let non_null_series := dropna series in
  if length non_null_series =? 0 then recommendations
  else if contains "string" data_type then
    recommendations ++ _analyze_string_quality non_null_series
  else if mem data_type ["decimal"; "int"; "bigint"; "tinyint"; "smallint"] then
    recommendations ++ _analyze_numeric_quality non_null_series
  else if mem data_type ["email"; "phone"; "url"] then
    recommendations ++ _analyze_pattern_quality non_null_series data_type
  else recommendations.

Definition analyze_column (series : Series) : ColumnAnalysis :=
  let name := series_name series in
  let total_count := length (cells series) in
  let null_count := count (fun c => negb (notnull c)) (cells series) in
  let null_percentage :=
    if 0 <? total_count then percent null_count total_count else 0%Q in
  let non_null_series := dropna (cells series) in
  let unique_count := nunique non_null_series in
  let sample_values :=
    if 0 <? length non_null_series then firstn 5 non_null_series else [] in
  let '(data_type, mysql_type) := _infer_types (cells series) in
  let cleaning_recommendations :=
    _generate_cleaning_recommendations (cells series) data_type
                                       null_percentage in
  mkColumnAnalysis name data_type mysql_type sample_values null_count
                   unique_count total_count (round2 null_percentage)
                   "" cleaning_recommendations.

End Engine.
End SchemaInferenceEngine.

(** ** The two thresholds in binary64 arithmetic

    The tests of [_detect_patterns] and [_detect_numeric_types] as
    Python evaluates them: the count is converted to a float and
    compared with the product of the length and the constant nearest
    to 0.8 or 0.9. *)

Module FloatModel.
Import Floats.

Definition float_of_nat (n : nat) : float :=
  PrimFloat.of_uint63 (Uint63.of_Z (Z.of_nat n)).

(* The binary64 numbers nearest to 0.8 and to 0.9. *)
Definition f08 : float := 0x1.999999999999ap-1%float.
Definition f09 : float := 0x1.ccccccccccccdp-1%float.

Definition above_threshold_f (matches total_count : nat) : bool :=
  PrimFloat.ltb (PrimFloat.mul (float_of_nat total_count) f08)
                (float_of_nat matches).

Definition below_numeric_threshold_f (valid len : nat) : bool :=
  PrimFloat.ltb (float_of_nat valid)
                (PrimFloat.mul (float_of_nat len) f09).

(** The exact tests agree with the binary64 ones for every count up
    to [bound] out of every length up to [bound]. *)
Definition agree_up_to (bound : nat) : bool :=
  forallb
    (fun n =>
       forallb
         (fun m =>
            Bool.eqb (SchemaInferenceEngine.above_threshold m n)
                     (above_threshold_f m n)
            && Bool.eqb (SchemaInferenceEngine.below_numeric_threshold m n)
                        (below_numeric_threshold_f m n))
         (seq 0 (S n)))
    (seq 0 (S bound)).

End FloatModel.

(** ** A reference instance of the library interface

    Plain decimal literals, read exactly: an optional sign, digits,
    and an optional point followed by digits, with blanks around
    allowed. Exponents, [inf] and [nan] are left out; everything
    proved for all instances covers them. *)

Module DecimalLiterals.
Import PyStr Pandas.

Fixpoint digits_value (acc : Z) (s : string) : Z * nat * string :=
  match s with
  | String c r =>
      if is_ascii_digit c
      then
        let '(v, n, rest) :=
          digits_value (acc * 10 + Z.of_nat (code c - 48)) r in
        (v, S n, rest)
      else (acc, 0, s)
  | EmptyString => (acc, 0, s)
  end.

Definition unsigned_literal (s : string) : option Q :=
  let '(ip, n_ip, rest) := digits_value 0 s in
  match rest with
  | EmptyString => if 0 <? n_ip then Some (inject_Z ip) else None
  | String c frac =>
      if Ascii.eqb c "." then
        let '(fp, n_fp, rest') := digits_value 0 frac in
        match rest' with
        | EmptyString =>
            if 0 <? n_ip + n_fp
            then Some (Qred (inject_Z ip + (fp # Pos.pow 10 (Pos.of_nat n_fp))))
            else None
        | _ => None
        end
      else None
  end.

Definition parse (cell : string) : option Q :=
  match strip cell with
  | String c r =>
      if Ascii.eqb c "-" then option_map Qopp (unsigned_literal r)
      else if Ascii.eqb c "+" then unsigned_literal r
      else unsigned_literal (String c r)
  | EmptyString => None
  end.

(** The digits after the point in the positional text of a float:
    the fewest that write the value exactly, and at least one
    ([2.0]). *)
Fixpoint places_from (fuel k : nat) (x : Q) : option nat :=
  match fuel with
  | O => None
  | S fuel' =>
      if is_integral (x * inject_Z (10 ^ Z.of_nat k))
      then Some k
      else places_from fuel' (S k) x
  end.

Definition places (x : Q) : option nat := places_from 17 1 x.

#[export] Instance decimal_literals : Numeric :=
  {| to_numeric := parse; decimal_places := places |}.

End DecimalLiterals.

(** ** The layout of the DDL, in the words of the specification

    What section 4.5 prescribes, written out part by part; it is
    compared below with what [generate_ddl] builds. *)

Module DDLSpec.
Import PyStr DDLGenerator.

Definition column_identifier (c : ColumnAnalysis) : string :=
  let s := _sanitize_identifier (name c) in
  if mem (lower s) reserved_words then s ++ "_col" else s.

Definition null_clause (c : ColumnAnalysis) : string :=
  if 0 <? null_count c then "NULL" else "NOT NULL".

Definition escape_quotes (d : string) : string :=
  replace_char "'"%char "\'" d.

Definition comment_text (d : string) : string :=
  take 100 (escape_quotes d).

Definition comment_clause (c : ColumnAnalysis) : string :=
  if nonempty (description c)
  then " COMMENT '" ++ comment_text (description c) ++ "'"
  else "".

(** The parts of a definition in their order, after an indentation of
    four blanks and with one blank between them. *)
Definition spec_column_definition (c : ColumnAnalysis) : string :=
  "    `" ++ column_identifier c ++ "`" ++ " " ++ mysql_type c
    ++ " " ++ null_clause c ++ comment_clause c.

Definition header (table_name : string) : string :=
  "CREATE TABLE `" ++ _sanitize_identifier table_name ++ "` (".

Definition footer : string :=
  ") ENGINE=InnoDB DEFAULT CHARSET=utf8mb4 COLLATE=utf8mb4_unicode_ci;".

Definition spec_ddl (table_name : string) (defs : list string) : string :=
  header table_name ++ nl ++ String.concat ("," ++ nl) defs ++ nl ++ footer.


(** An identifier that sanitization leaves alone. *)
Definition clean (s : string) : Prop :=
  all_chars is_ident_char s = true /\
  String.length s <= 64 /\
  exists c r, s = String c r /\ isdigit c = false.

(** Inputs of the examples. *)
Definition sample_columns : list ColumnAnalysis :=
  [ mkColumnAnalysis "user id" "tinyint_unsigned" "TINYINT UNSIGNED"
      ["1"; "2"] 0 2 2 0 "Unique identifier" [];
    mkColumnAnalysis "order" "short_string" "VARCHAR(14)"
      ["a"] 1 1 2 50 "" [] ].

(** The claim C6 as it is written: the DDL for table [select] and a
    column [created-at] contains both quoted identifiers. *)
Definition contains_both (ddl : string) : Prop :=
  contains "`select_col`" ddl = true /\ contains "`created_at`" ddl = true.

Definition created_at_column : ColumnAnalysis :=
  @SchemaInferenceEngine.analyze_column DecimalLiterals.decimal_literals
    (SchemaInferenceEngine.mkSeries "created-at"
       [Some "2023-01-01"; Some "2023-01-02"; Some "2023-01-03"]).

Definition ninety_nine : string := String.concat "" (repeat "a" 99).

Definition long_comment_column : ColumnAnalysis :=
  mkColumnAnalysis "note" "string" "VARCHAR(140)" [] 0 1 1 0
    (ninety_nine ++ "'" ++ "s") [].

End DDLSpec.

(** ** The statements about the engine, as the specification words them *)

Module EngineSpec.
Import PyStr Regex Pandas SchemaInferenceEngine.

(** The range of a MySQL integer type, as section 4.1 lists them;
    the two BIGINT ranges are those of 64-bit integers. *)
Definition mysql_integer_range (target_type : string) : option (Z * Z) :=
  if String.eqb target_type "TINYINT UNSIGNED" then Some (0, 255)%Z
  else if String.eqb target_type "SMALLINT UNSIGNED" then Some (0, 65535)%Z
  else if String.eqb target_type "INT UNSIGNED" then Some (0, 4294967295)%Z
  else if String.eqb target_type "BIGINT UNSIGNED"
       then Some (0, 18446744073709551615)%Z
  else if String.eqb target_type "TINYINT" then Some (-128, 127)%Z
  else if String.eqb target_type "SMALLINT" then Some (-32768, 32767)%Z
  else if String.eqb target_type "INT" then Some (-2147483648, 2147483647)%Z
  else if String.eqb target_type "BIGINT"
       then Some (-9223372036854775808, 9223372036854775807)%Z
  else None.

(** The six target types chosen after a check of both bounds. *)
Definition checked_types : list string :=
  [ "TINYINT UNSIGNED"; "SMALLINT UNSIGNED"; "INT UNSIGNED";
    "TINYINT"; "SMALLINT"; "INT" ].

Definition integer_types : list string :=
  [ "tinyint_unsigned"; "smallint_unsigned"; "int_unsigned";
    "bigint_unsigned"; "tinyint"; "smallint"; "int"; "bigint" ].

Definition in_range (v : Q) (lo hi : Z) : Prop :=
  (inject_Z lo <= v)%Q /\ (v <= inject_Z hi)%Q.

Section WithLibrary.
Context {lib : Numeric}.

(** The numbers the classifier sees in a column: what its non-null
    cells coerce to. *)
Definition observed_numbers (series : list (option string)) : list Q :=
  dropna (map to_numeric (dropna series)).

(** The claim C1 as it is written: the range of the chosen integer
    type holds every observed number. *)
Definition values_fit (series : list (option string)) : Prop :=
  forall lo hi v,
    mysql_integer_range (snd (_infer_types series)) = Some (lo, hi) ->
    In v (observed_numbers series) ->
    in_range v lo hi.

(** How many values of a column coerce to a number. *)
Definition numeric_count (values : list string) : nat :=
  length (dropna (map to_numeric values)).

End WithLibrary.

(** The null-rate finding of section 4.2: one of three tiers, or
    none up to 5%. *)
Definition null_rate_finding (null_percentage : Q) : list string :=
  if qlt_bool 50 null_percentage then
    ["High null rate (" ++ fmt1 null_percentage
       ++ "%) - evaluate column necessity"]
  else if qlt_bool 20 null_percentage then
    ["Significant null rate (" ++ fmt1 null_percentage
       ++ "%) - implement null handling strategy"]
  else if qlt_bool 5 null_percentage then
    ["Moderate null rate (" ++ fmt1 null_percentage
       ++ "%) - consider default values"]
  else [].

(** The tags of the unsigned integer types. *)
Definition unsigned_types : list string :=
  [ "tinyint_unsigned"; "smallint_unsigned"; "int_unsigned";
    "bigint_unsigned" ].

(** The tags the analyzer lists as numeric. *)
Definition listed_numeric_types : list string :=
  [ "decimal"; "int"; "bigint"; "tinyint"; "smallint" ].

(** Strictly more than 80% of the values match the pattern, case
    ignored. *)
Definition accepted (pattern : regex) (values : list string) : Prop :=
  4 * length values < 5 * count (re_match true pattern) values.

(** Inputs of the examples. *)
Definition beyond_64_bits : list (option string) :=
  [Some "100000000000000000000"].

Definition shuffled_a : list (option string) :=
  [Some "3"; None; Some "-1"; Some "200"].
Definition shuffled_b : list (option string) :=
  [Some "200"; Some "-1"; None; Some "3"].

Definition emails : list (option string) :=
  [ Some "john@email.com"; Some "jane@email.com"; Some "bob@email.com";
    None; Some "charlie@email.com" ].

Definition mostly_numeric (n : nat) : list string :=
  repeat "42" n ++ repeat "abc" (100 - n).

Definition constant_quantity : Series :=
  mkSeries "quantity" [Some "5"; Some "5"; Some "5"].

Definition constant_balance : Series :=
  mkSeries "balance" [Some "-5"; Some "-5"; Some "-5"].

Definition skewed_quantity : Series :=
  mkSeries "quantity" [Some "1"; Some "2"; Some "3"; Some "4"; Some "100"].

Definition all_null : Series := mkSeries "notes" [None; None; None].

Definition no_rows : Series := mkSeries "notes" [].

End EngineSpec.

(** ** Further notions about the generated DDL *)

Module DDLNotions.
Import PyStr DDLGenerator.



(** [s[0].isdigit()] for a string that has a first character. *)
Definition starts_with_digit (s : string) : bool :=
  match s with
  | String c _ => isdigit c
  | EmptyString => false
  end.


(** Inputs of the examples. *)
Definition spaced_name : string := "user name".
Definition dashed_name : string := "user-name".

End DDLNotions.


(** ** Further notions about the classifier *)

Module EngineNotions.
Import PyStr Regex Pandas SchemaInferenceEngine EngineSpec.

(** The range of the next smaller integer type of the same
    signedness, for the types that have one. *)
Definition narrower_range (target_type : string) : option (Z * Z) :=
  if String.eqb target_type "SMALLINT UNSIGNED" then Some (0, 255)%Z
  else if String.eqb target_type "INT UNSIGNED" then Some (0, 65535)%Z
  else if String.eqb target_type "BIGINT UNSIGNED" then Some (0, 4294967295)%Z
  else if String.eqb target_type "SMALLINT" then Some (-128, 127)%Z
  else if String.eqb target_type "INT" then Some (-32768, 32767)%Z
  else if String.eqb target_type "BIGINT"
       then Some (-2147483648, 2147483647)%Z
  else None.

Definition signed_targets : list string :=
  ["TINYINT"; "SMALLINT"; "INT"; "BIGINT"].

Definition unsigned_targets : list string :=
  ["TINYINT UNSIGNED"; "SMALLINT UNSIGNED"; "INT UNSIGNED"; "BIGINT UNSIGNED"].

(** The pairs of tag and target type that do not depend on a width. *)
Definition fixed_types : list (string * string) :=
  [ ("unknown", "TEXT");
    ("email", "VARCHAR(100)"); ("phone", "VARCHAR(25)");
    ("url", "VARCHAR(500)"); ("date", "DATE"); ("time", "TIME");
    ("boolean", "BOOLEAN"); ("uuid", "CHAR(36)");
    ("tinyint_unsigned", "TINYINT UNSIGNED");
    ("smallint_unsigned", "SMALLINT UNSIGNED");
    ("int_unsigned", "INT UNSIGNED"); ("bigint_unsigned", "BIGINT UNSIGNED");
    ("tinyint", "TINYINT"); ("smallint", "SMALLINT"); ("int", "INT");
    ("bigint", "BIGINT");
    ("decimal", "DECIMAL(15,4)"); ("decimal", "DECIMAL(20,6)");
    ("float", "FLOAT");
    ("string", "VARCHAR(255)"); ("medium_string", "TEXT");
    ("long_string", "LONGTEXT") ].

Definition varchar (n : nat) : string := "VARCHAR(" ++ str_of_nat n ++ ")".

(** The class of the phone pattern: [[\d\s\-\(\)\.]]. *)
Definition phone_class (c : ascii) : bool :=
  digit c || space c || one_of "-()." c.

(** A value the phone pattern accepts without a leading [+]: 7 to 20
    characters of its class. *)
Definition phone_like (s : string) : Prop :=
  7 <= String.length s <= 20 /\ all_chars phone_class s = true.

Section WithLibrary.
Context {lib : Numeric}.

(** The phases of the classification, one by one. *)
Inductive phase (series : list (option string)) : string * string -> Prop :=
| phase_unknown :
    dropna series = [] -> phase series ("unknown", "TEXT")
| phase_pattern p :
    In p (map fst type_patterns) ->
    phase series (p, _get_mysql_type_for_pattern p)
| phase_integer :
    observed_numbers series <> [] ->
    forallb is_integral (observed_numbers series) = true ->
    phase series (_classify_integer_type (observed_numbers series))
| phase_decimal :
    forallb is_integral (observed_numbers series) = false ->
    phase series (_classify_decimal_type (observed_numbers series))
| phase_string :
    dropna series <> [] ->
    phase series (_analyze_string_type (map strip (dropna series))).

End WithLibrary.

(** Inputs of the examples. *)
Definition iso_dates : list (option string) :=
  [Some "2023-01-01"; Some " 2023-01-02"; None; Some "2023-01-03 "].

Definition small_and_large : list (option string) :=
  [Some "12"; Some "300"; None].

Definition two_nulls_of_five : Series :=
  mkSeries "score" [Some "1"; None; Some "2"; None; Some "2"].

End EngineNotions.


(** ** [app/services/description_generator.py]: the rule-based descriptions *)

Module DescriptionGenerator.
Import PyStr Pandas SchemaInferenceEngine.

(** [str(x)] of a float, as an f-string renders it, is library code. *)
Class FloatText : Type := {
  float_str : Q -> string
}.

Definition max_description_length : nat := 200.

(** [re.sub(r'([a-z])([A-Z])', r'\1 \2', s)]: the scan resumes after
    the capital of a match. *)
Fixpoint split_camel (s : string) : string :=
  match s with
  | EmptyString => EmptyString
  | String c1 t =>
      match t with
      | String c2 r =>
          if is_lower c1 && is_upper c2
          then String c1 (String " " (String c2 (split_camel r)))
          else String c1 (split_camel t)
      | EmptyString => String c1 EmptyString
      end
  end.

Definition _humanize_name (name : string) : string :=
  let humanized := replace_char "_" " " name in
  let humanized := split_camel humanized in
  strip (lower humanized).

(** [any(word in s for word in words)]. *)
Definition any_in (words : list string) (s : string) : bool :=
  existsb (fun word => contains word s) words.

(** The assignment [col.description = d]. *)
Definition set_description (col : ColumnAnalysis) (d : string)
  : ColumnAnalysis :=
  mkColumnAnalysis (name col) (data_type col) (mysql_type col)
    (sample_values col) (null_count col) (unique_count col)
    (total_count col) (null_percentage col) d
    (cleaning_recommendations col).

Section Generator.
Context {text : FloatText}.

Definition _generate_fallback_description (col : ColumnAnalysis) : string :=
  let name_lower := lower (name col) in
  let desc :=
    if any_in ["id"; "key"; "pk"] name_lower then
      "Unique identifier field for " ++ _humanize_name (name col)
    else if contains "name" name_lower || contains "title" name_lower then
      "Name or title field containing descriptive text"
    else if any_in ["date"; "time"; "created"; "updated"; "modified"]
                   name_lower then
      "Timestamp field for " ++ _humanize_name (name col) ++ " events"
    else if any_in ["email"; "mail"] name_lower then
      "Email address field with validation format requirements"
    else if any_in ["phone"; "tel"; "mobile"] name_lower then
      "Phone number field supporting various international formats"
    else if any_in ["url"; "link"; "website"] name_lower then
      "URL field for web addresses and external links"
    else if any_in ["address"; "addr"; "location"] name_lower then
      "Address field storing " ++ _humanize_name (name col) ++ " information"
    else if any_in ["amount"; "price"; "cost"; "value"; "total"; "sum"]
                   name_lower then
      "Monetary value field for " ++ _humanize_name (name col)
        ++ " calculations"
    else if any_in ["count"; "number"; "qty"; "quantity"] name_lower then
      "Numeric count field for " ++ _humanize_name (name col) ++ " tracking"
    else if any_in ["status"; "state"; "flag"] name_lower then
      "Status indicator field for " ++ _humanize_name (name col)
    else if any_in ["description"; "desc"; "comment"; "note"] name_lower then
      "Descriptive text field containing " ++ _humanize_name (name col)
        ++ " details"
    else if String.eqb (data_type col) "boolean" then
      "Boolean flag indicating " ++ _humanize_name (name col) ++ " state"
    else if mem (data_type col)
                ["decimal"; "int"; "bigint"; "tinyint"; "smallint"] then
      "Numeric field (" ++ mysql_type col ++ ") with "
        ++ str_of_nat (unique_count col) ++ " unique values"
    else if contains "string" (data_type col) then
      "Text field (" ++ mysql_type col ++ ") containing "
        ++ _humanize_name (name col) ++ " data"
    else
      "Data field of type " ++ mysql_type col ++ " with "
        ++ str_of_nat (unique_count col) ++ " distinct values" in
  let desc :=
    if qlt_bool 20 (null_percentage col) then
      desc ++ " (High null rate: " ++ float_str (null_percentage col) ++ "%)"
    else if 2 <? length (cleaning_recommendations col) then
      desc ++ " (Multiple data quality issues detected)"
    else desc in
  take max_description_length desc.

(** The loop assigns each column its description and returns the
    list. *)
Definition _generate_fallback_descriptions (columns : list ColumnAnalysis)
  : list ColumnAnalysis :=
  map (fun col => set_description col (_generate_fallback_description col))
      columns.

End Generator.

(** A reference rendering of floats with at most two decimals, as
    [round(x, 2)] leaves them: the digits after the point without
    trailing zeros, and at least one. *)
Definition two_decimals (q : Q) : string :=
  let r := round_half_even (Qabs q * inject_Z 100) in
  let frac := (r mod 100)%Z in
  (if Qlt_le_dec q 0 then "-" else "") ++ str_of_Z (r / 100) ++ "."
    ++ (if (frac mod 10 =? 0)%Z then str_of_Z (frac / 10)
        else if (frac <? 10)%Z then "0" ++ str_of_Z frac
        else str_of_Z frac).

#[export] Instance two_decimal_text : FloatText :=
  {| float_str := two_decimals |}.

(** Inputs of the examples. *)
Definition sparse_notes : ColumnAnalysis :=
  mkColumnAnalysis "customerNotes_raw" "short_string" "VARCHAR(14)" ["a"]
    3 1 4 75 "" [].

End DescriptionGenerator.


(** ** Notions about humanized names *)

Module DescriptionNotions.
Import PyStr.

(** Neither an underscore nor an ASCII capital. *)
Definition plain (c : ascii) : bool :=
  negb (Ascii.eqb c "_") && negb (is_upper c).

(** A character that [lower] leaves alone and that is [plain]. *)
Definition settled (c : ascii) : bool :=
  plain c && Ascii.eqb (lower_char c) c.

Definition no_underscore (c : ascii) : bool := negb (Ascii.eqb c "_").

(** A string that does not begin with a blank. *)
Definition left_trimmed (s : string) : Prop :=
  match s with
  | EmptyString => True
  | String c _ => isspace c = false
  end.

End DescriptionNotions.


(** ** [app/services/csv_parser.py]: the table handed to the engine *)

Module CSVParser.
Import PyStr Pandas.

(** The dict [seen], newest binding first. *)
Fixpoint dict_lookup (seen : list (string * nat)) (key : string) : option nat :=
  match seen with
  | [] => None
  | (k, v) :: r => if String.eqb k key then Some v else dict_lookup r key
  end.

Definition dict_set (seen : list (string * nat)) (key : string) (v : nat)
  : list (string * nat) :=
  (key, v) :: seen.

Fixpoint handle_from (seen : list (string * nat)) (columns : list string)
  : list string :=
  match columns with
  | [] => []
  | col :: rest =>
      match dict_lookup seen col with
      | Some n =>
          (col ++ "_" ++ str_of_nat (n + 1))
            :: handle_from (dict_set seen col (n + 1)) rest
      | None => col :: handle_from (dict_set seen col 0) rest
      end
  end.

Definition _handle_duplicate_columns (columns : list string) : list string :=
  handle_from [] columns.

(** A DataFrame of strings: its column labels and its rows, each row
    with one cell per label. *)
Record DataFrame : Type := mkDataFrame {
  df_columns : list string;
  df_rows : list (list (option string))
}.

(** [df.dropna(how='all')] keeps the rows with a cell that is not
    null. *)
Definition dropna_all (rows : list (list (option string)))
  : list (list (option string)) :=
  filter (fun row => existsb notnull row) rows.

Definition _clean_dataframe (df : DataFrame) : DataFrame :=
  let columns := map strip (df_columns df) in
  let rows := dropna_all (df_rows df) in
  mkDataFrame (_handle_duplicate_columns columns) rows.

(** The dict [parsing_info], by its four keys. *)
Record ParsingInfo : Type := mkParsingInfo {
  info_separator : string;
  info_encoding : string;
  info_rows : nat;
  info_columns : nat
}.

End CSVParser.

(** ** [app/utils/error_handler.py] and the messages of [constants.py] *)

Module ErrorHandler.

Definition csv_parsing_failed : string :=
  "Could not parse CSV file with any common separator".
Definition empty_file : string := "Uploaded file is empty".
Definition unsupported_format : string :=
  "Please upload a CSV file (.csv extension required)".
Definition analysis_failed : string :=
  "Analysis failed due to an unexpected error".

(** The classes of [error_handler.py]: [SchemaSenseError] and its two
    subclasses. *)
Inductive schema_sense_class : Type :=
| Base
| CSVParsing
| Analysis.

(** The exceptions that travel through the request handler.
    [csv_parser.py] defines a class [CSVParsingError] of its own,
    derived from [Exception]; it is not the class of that name in
    [error_handler.py]. *)
Inductive exception : Type :=
| HTTPException (status_code : nat) (detail : string)
| SchemaSenseError (cls : schema_sense_class) (message : string)
                   (status_code : nat)
| ParserCSVParsingError (message : string)
| OtherException (type_name message : string).

(** [CSVParsingError(message)] and [AnalysisError(message)] of
    [error_handler.py]. *)
Definition CSVParsingError (message : string) : exception :=
  SchemaSenseError CSVParsing message 400.
Definition AnalysisError (message : string) : exception :=
  SchemaSenseError Analysis message 500.

(** The exception returned is the one the handler raises. *)
Definition handle_api_error (error : exception) : exception :=
  match error with
  | SchemaSenseError _ message status_code =>
      HTTPException status_code message
  | _ => HTTPException 500 analysis_failed
  end.

End ErrorHandler.

(** ** [parse_csv] and the request handler of [app/api/routes.py] *)

Module Routes.
Import PyStr Pandas SchemaInferenceEngine DDLGenerator CSVParser ErrorHandler.

Record FileInfo : Type := mkFileInfo {
  fi_name : string;
  fi_separator : string;
  fi_encoding : string;
  fi_rows : nat;
  fi_columns : nat
}.

Record AnalysisSummary : Type := mkAnalysisSummary {
  total_columns : nat;
  columns_with_nulls : nat;
  avg_null_percentage : Q;
  total_recommendations : nat
}.

Record AnalysisResponse : Type := mkAnalysisResponse {
  success : bool;
  table_name : string;
  file_info : FileInfo;
  ddl : string;
  response_columns : list ColumnAnalysis;
  summary : AnalysisSummary
}.

(** [s[n:]]. *)
Fixpoint drop (n : nat) (s : string) : string :=
  match n, s with
  | S m, String _ r => drop m r
  | _, _ => s
  end.

(** [s.endswith(suffix)]. *)
Definition endswith (s suffix : string) : bool :=
  (String.length suffix <=? String.length s) &&
  String.eqb (drop (String.length s - String.length suffix) s) suffix.

(** [sum(...)] over the columns. *)
Definition sum_nat (xs : list nat) : nat := fold_left Nat.add xs 0.
Definition sum_Q (xs : list Q) : Q := fold_left Qplus xs 0%Q.

(** The summary of the response. *)
Definition make_summary (columns : list ColumnAnalysis) : AnalysisSummary :=
  mkAnalysisSummary
    (length columns)
    (sum_nat (map (fun _ => 1)
                  (filter (fun col => 0 <? null_count col) columns)))
    (round2 (if 0 <? length columns
             then (sum_Q (map null_percentage columns)
                   / inject_Z (Z.of_nat (length columns)))%Q
             else 0%Q))
    (sum_nat (map (fun col => length (cleaning_recommendations col)) columns)).

(** The cells under one label, taken from the rows. *)
Definition column_cells (df : DataFrame) (j : nat) : list (option string) :=
  map (fun row => nth j row None) (df_rows df).

Fixpoint index_of (label : string) (labels : list string) : nat :=
  match labels with
  | [] => 0
  | l :: r => if String.eqb l label then 0 else S (index_of label r)
  end.

Section Handler.
Context {lib : Numeric}.

(** What the handler takes from outside the engine. The decoding and
    the reading of the text by pandas are library code:
    [detect_encoding] never fails; [_decode_content] returns the text
    or fails; [detect_separator] returns a separator;
    [_parse_with_fallbacks] returns a frame and the separator used,
    or nothing. [max_file_size] is the setting of that name, and
    [unparsable] the text of the error raised for a frame that is
    missing, too narrow or empty. [generate_descriptions] attaches the
    descriptions. *)
Variable max_file_size : Z.
Variable unparsable : string.
Variable detect_encoding : string -> string.
Variable _decode_content : string -> string -> exception + string.
Variable detect_separator : string -> string.
Variable _parse_with_fallbacks :
  string -> string -> string -> option (DataFrame * string).
Variable generate_descriptions : list ColumnAnalysis -> list ColumnAnalysis.

Definition parse_csv (content : string)
  : exception + (DataFrame * ParsingInfo) :=
  if String.length content =? 0 then
    inl (ParserCSVParsingError "File is empty")
  else if (max_file_size <? Z.of_nat (String.length content))%Z then
    inl (ParserCSVParsingError
           ("File too large (max "
              ++ str_of_Z (max_file_size / (1024 * 1024)) ++ "MB)"))
  else
    let encoding := detect_encoding content in
    match _decode_content content encoding with
    | inl e => inl e
    | inr text_content =>
        let separator := detect_separator text_content in
        match _parse_with_fallbacks text_content separator encoding with
        | None => inl (ParserCSVParsingError unparsable)
        | Some (df, used_separator) =>
            if (length (df_columns df) <=? 1) || (length (df_rows df) =? 0)
            then inl (ParserCSVParsingError unparsable)
            else
              let df := _clean_dataframe df in
              inr (df, mkParsingInfo used_separator encoding
                         (length (df_rows df)) (length (df_columns df)))
        end
    end.

(** [df[col_name]]: a Series when the label occurs once. When it
    occurs twice the value is a DataFrame, on which [analyze_column]
    fails; only the fact that the failure is neither an
    [HTTPException] nor a [SchemaSenseError] matters here. *)
Definition getitem (df : DataFrame) (col_name : string)
  : exception + Series :=
  if count_occ string_dec (df_columns df) col_name =? 1
  then inr (mkSeries col_name
              (column_cells df (index_of col_name (df_columns df))))
  else inl (OtherException "" "").

Fixpoint analyze_all (df : DataFrame) (labels : list string)
  : exception + list ColumnAnalysis :=
  match labels with
  | [] => inr []
  | col_name :: rest =>
      match getitem df col_name with
      | inl e => inl e
      | inr series =>
          match analyze_all df rest with
          | inl e => inl e
          | inr columns => inr (analyze_column series :: columns)
          end
      end
  end.

(** The body of the outer [try]. *)
Definition analyze_csv_body (filename : option string) (content : string)
    (table_name : string) : exception + AnalysisResponse :=
  let bad_name :=
    match filename with
    | None => true
    | Some f => negb (nonempty f) || negb (endswith (lower f) ".csv")
    end in
  if bad_name then inl (HTTPException 400 unsupported_format)
  else if String.length content =? 0 then inl (HTTPException 400 empty_file)
  else
    let parsed :=
      match parse_csv content with
      | inl (SchemaSenseError CSVParsing message _) =>
          inl (HTTPException 400 message)
      | r => r
      end in
    match parsed with
    | inl e => inl e
    | inr (df, parsing_info) =>
        match analyze_all df (df_columns df) with
        | inl e => inl e
        | inr columns =>
            let columns := generate_descriptions columns in
            let ddl := generate_ddl table_name columns in
            inr (mkAnalysisResponse true table_name
                   (mkFileInfo
                      (match filename with Some f => f | None => "" end)
                      (info_separator parsing_info)
                      (info_encoding parsing_info)
                      (info_rows parsing_info) (info_columns parsing_info))
                   ddl columns (make_summary columns))
        end
    end.

(** [except HTTPException: raise] and
    [except Exception as e: raise handle_api_error(e)]. *)
Definition analyze_csv (filename : option string) (content : string)
    (table_name : string) : exception + AnalysisResponse :=
  match analyze_csv_body filename content table_name with
  | inl (HTTPException status_code detail) =>
      inl (HTTPException status_code detail)
  | inl e => inl (handle_api_error e)
  | inr response => inr response
  end.

End Handler.
End Routes.


(** ** Notions about the parsed table *)

Module CSVNotions.
Import PyStr Pandas CSVParser ErrorHandler.

(** The label of a column whose name occurred [k] times before it. *)
Definition label_for (k : nat) (col : string) : string :=
  if k =? 0 then col else col ++ "_" ++ str_of_nat k.

(** [seen] counts the repeats of every name of [before]. *)
Definition seen_counts (seen : list (string * nat)) (before : list string)
  : Prop :=
  forall c,
    dict_lookup seen c
    = if count_occ string_dec before c =? 0 then None
      else Some (count_occ string_dec before c - 1).

(** A row without any value. *)
Definition all_null (row : list (option string)) : Prop :=
  existsb notnull row = false.

(** Inputs of the examples: a frame of two columns whose only rows are
    empty, and library functions that hand it over. *)
Definition blank_frame : DataFrame :=
  mkDataFrame ["a"; " b"] [[None; None]; [None; None]].

Definition people_frame : DataFrame :=
  mkDataFrame ["name "; "age"; "name"]
    [[Some "Ann"; Some "31"; Some "x"]; [None; None; None];
     [Some "Bob"; None; Some "y"]].

Definition decode_as_is (content encoding : string)
  : exception + string := inr content.

Definition read_blank (text separator encoding : string)
  : option (DataFrame * string) := Some (blank_frame, ",").

Definition read_people (text separator encoding : string)
  : option (DataFrame * string) := Some (people_frame, ",").

Definition read_nothing (text separator encoding : string)
  : option (DataFrame * string) := None.

Definition mebibytes_100 : Z := (100 * 1024 * 1024)%Z.

End CSVNotions.


(** ** Notions about the request handler *)

Module RouteNotions.
Import PyStr Pandas SchemaInferenceEngine CSVParser ErrorHandler Routes.
Import CSVNotions DescriptionGenerator DecimalLiterals.

(** The upload has a name that ends in [.csv], whatever the case. *)
Definition csv_name (filename : option string) : bool :=
  match filename with
  | Some f => nonempty f && endswith (lower f) ".csv"
  | None => false
  end.

(** What [_decode_content] can raise: the parser's own error, or an
    error of the codec lookup. *)
Definition parser_side (e : exception) : Prop :=
  (exists m, e = ParserCSVParsingError m) \/
  (exists t m, e = OtherException t m).

(** The handler over the example library functions, with the
    rule-based descriptions. *)
Definition example_handler
    (read : string -> string -> string -> option (DataFrame * string))
    (filename : option string) (content table_name : string)
  : exception + AnalysisResponse :=
  analyze_csv mebibytes_100 "Could not parse CSV file."
    (fun _ => "utf-8") decode_as_is (fun _ => ",") read
    _generate_fallback_descriptions filename content table_name.

Definition people_response : exception + AnalysisResponse :=
  example_handler read_people (Some "People.CSV") "name ,age,name" "people".

End RouteNotions.


(** ** Facts about the string primitives *)

Module PyStrFacts.
Import PyStr.

Lemma append_nil_r (s : string) : s ++ "" = s.
Proof. induction s as [|c s IH]; simpl; [reflexivity | now rewrite IH]. Qed.

Lemma append_assoc (a b c : string) : (a ++ b) ++ c = a ++ (b ++ c).
Proof. induction a as [|x a IH]; simpl; [reflexivity | now rewrite IH]. Qed.

Lemma length_app (a b : string) :
  String.length (a ++ b) = String.length a + String.length b.
Proof. induction a as [|x a IH]; simpl; [reflexivity | now rewrite IH]. Qed.

Lemma length_map_chars (f : ascii -> ascii) (s : string) :
  String.length (map_chars f s) = String.length s.
Proof. induction s as [|c s IH]; simpl; [reflexivity | now rewrite IH]. Qed.

Lemma length_take (n : nat) (s : string) :
  String.length (take n s) = Nat.min n (String.length s).
Proof.
  revert s; induction n as [|n IH]; intros [|c s]; simpl; try reflexivity.
  now rewrite IH.
Qed.


Lemma take_app_exact (a b : string) : take (String.length a) (a ++ b) = a.
Proof. induction a as [|x a IH]; simpl; [now destruct b | now rewrite IH]. Qed.

Lemma take_app_more (n : nat) (a b : string) :
  take (String.length a + n) (a ++ b) = a ++ take n b.
Proof. induction a as [|x a IH]; simpl; [reflexivity | now rewrite IH]. Qed.

Lemma all_chars_app (p : ascii -> bool) (a b : string) :
  all_chars p (a ++ b) = all_chars p a && all_chars p b.
Proof.
  induction a as [|x a IH]; simpl; [reflexivity|].
  now rewrite IH, andb_assoc.
Qed.

Lemma all_chars_take (p : ascii -> bool) (n : nat) (s : string) :
  all_chars p s = true -> all_chars p (take n s) = true.
Proof.
  revert s; induction n as [|n IH]; intros [|c s]; simpl; try reflexivity.
  intros H; apply andb_true_iff in H as [Hc Hs].
  now rewrite Hc, IH.
Qed.

Lemma nonempty_true (s : string) : nonempty s = true <-> s <> "".
Proof. destruct s; simpl; split; congruence. Qed.

Lemma replace_char_app (old : ascii) (new a b : string) :
  replace_char old new (a ++ b)
  = replace_char old new a ++ replace_char old new b.
Proof.
  induction a as [|x a IH]; simpl; [reflexivity|].
  destruct (Ascii.eqb x old); rewrite IH; simpl;
    [now rewrite append_assoc | reflexivity].
Qed.

End PyStrFacts.

(** ** The DDL generator *)

Module DDLFacts.
Import PyStr PyStrFacts DDLGenerator DDLSpec.

Lemma sub_invalid_valid (s : string) :
  all_chars is_ident_char (sub_invalid s) = true.
Proof.
  induction s as [|c s IH]; simpl; [reflexivity|].
  unfold sub_invalid in IH; rewrite IH, andb_true_r.
  destruct (is_ident_char c) eqn:E; [exact E | reflexivity].
Qed.

Lemma sub_invalid_fix (s : string) :
  all_chars is_ident_char s = true -> sub_invalid s = s.
Proof.
  induction s as [|c s IH]; simpl; [reflexivity|].
  intros H; apply andb_true_iff in H as [Hc Hs].
  unfold sub_invalid in *; simpl; now rewrite Hc, IH.
Qed.

Lemma clean_fixed (s : string) : clean s -> _sanitize_identifier s = s.
Proof.
  intros (Hv & Hl & c & r & -> & Hd).
  unfold _sanitize_identifier.
  rewrite (sub_invalid_fix _ Hv).
  change (nonempty (String c r)) with true.
  change (negb true) with false; cbv iota.
  rewrite Hd.
  destruct (64 <? String.length (String c r)) eqn:E; [|reflexivity].
  apply Nat.ltb_lt in E; lia.
Qed.

Lemma truncation_clean (s : string) :
  (exists c r, s = String c r /\ isdigit c = false) ->
  all_chars is_ident_char s = true ->
  clean (if 64 <? String.length s then take 61 s ++ "_tr" else s).
Proof.
  intros (c & r & -> & Hd) Hv.
  destruct (64 <? String.length (String c r)) eqn:E.
  - apply Nat.ltb_lt in E. repeat split.
    + rewrite all_chars_app, all_chars_take by exact Hv. reflexivity.
    + rewrite length_app, length_take. simpl String.length in *. lia.
    + exists c, (take 60 r ++ "_tr"). split; [reflexivity | exact Hd].
  - apply Nat.ltb_ge in E. repeat split; [exact Hv | exact E |].
    exists c, r; split; [reflexivity | exact Hd].
Qed.

Lemma sanitize_clean (x : string) : clean (_sanitize_identifier x).
Proof.
  destruct x as [|c x].
  - repeat split; [simpl; lia|].
    exists "u"%char, "nnamed_column"; split; reflexivity.
  - unfold _sanitize_identifier.
    change (nonempty (String c x)) with true.
    change (negb true) with false; cbv iota.
    pose proof (sub_invalid_valid (String c x)) as Hv.
    assert (Hne : sub_invalid (String c x) <> "") by (simpl; discriminate).
    destruct (sub_invalid (String c x)) as [|d s]; [congruence|].
    destruct (isdigit d) eqn:Ed.
    + change (negb (nonempty ("col_" ++ String d s))) with false; cbv iota.
      apply truncation_clean.
      * exists "c"%char, ("ol_" ++ String d s); split; reflexivity.
      * rewrite all_chars_app, Hv; reflexivity.
    + change (negb (nonempty (String d s))) with false; cbv iota.
      apply truncation_clean; [|exact Hv].
      exists d, s; split; [reflexivity | exact Ed].
Qed.

(** C7. Sanitizing an identifier twice gives what sanitizing it once
    gives: [_sanitize_identifier] is idempotent on every string. *)
Theorem sanitize_idempotent (x : string) :
  _sanitize_identifier (_sanitize_identifier x) = _sanitize_identifier x.
Proof. apply clean_fixed, sanitize_clean. Qed.

Lemma column_definition_parts (c : ColumnAnalysis) :
  _generate_column_definition c
  = String.concat " "
      (filter nonempty
         [ "    `" ++ column_identifier c ++ "`"; mysql_type c; null_clause c;
           if nonempty (description c)
           then "COMMENT '" ++ comment_text (description c) ++ "'" else "" ]).
Proof. reflexivity. Qed.

Lemma column_definition_layout (c : ColumnAnalysis) :
  mysql_type c <> "" ->
  _generate_column_definition c = spec_column_definition c.
Proof.
  intros Ht. rewrite column_definition_parts.
  unfold spec_column_definition, comment_clause, null_clause.
  destruct (mysql_type c) as [|t ts]; [congruence|].
  destruct (0 <? null_count c), (nonempty (description c)); simpl;
    rewrite ?append_assoc; simpl; rewrite ?append_assoc; simpl;
    rewrite ?append_nil_r; reflexivity.
Qed.

Lemma column_definition_head (c : ColumnAnalysis) :
  exists rest,
    _generate_column_definition c
    = ("    `" ++ column_identifier c ++ "`") ++ rest.
Proof.
  rewrite column_definition_parts.
  change (filter nonempty (?p :: ?l)) with (p :: filter nonempty l).
  set (p := "    `" ++ column_identifier c ++ "`").
  destruct (filter nonempty _) as [|x xs].
  - exists "". simpl. now rewrite append_nil_r.
  - exists (" " ++ String.concat " " (x :: xs)). reflexivity.
Qed.

Lemma generate_ddl_parts (table_name : string) (columns : list ColumnAnalysis) :
  generate_ddl table_name columns
  = spec_ddl table_name (map _generate_column_definition columns).
Proof. reflexivity. Qed.

(** C5. For a table name and analyzed columns (each with its target
    type), the DDL is the fixed CREATE TABLE wrapper around the
    column definitions joined by a comma and a newline, one per
    input column in input order; each definition is the quoted
    identifier (sanitized, with [_col] after a reserved word), the
    target type, [NULL] or [NOT NULL] by the null count, and a
    COMMENT clause exactly when the description is not empty. *)
Theorem generate_ddl_layout (table_name : string)
    (columns : list ColumnAnalysis)
    (Htypes : Forall (fun c => mysql_type c <> "") columns) :
  generate_ddl table_name columns
  = spec_ddl table_name (map spec_column_definition columns).
Proof.
  rewrite generate_ddl_parts. f_equal.
  induction Htypes as [|c cs Hc _ IH]; simpl; [reflexivity|].
  now rewrite IH, (column_definition_layout c Hc).
Qed.

Lemma generate_ddl_layout_witness :
  generate_ddl "my table" sample_columns
  = "CREATE TABLE `my_table` (" ++ nl
    ++ "    `user_id` TINYINT UNSIGNED NOT NULL COMMENT 'Unique identifier'," ++ nl
    ++ "    `order_col` VARCHAR(14) NULL" ++ nl
    ++ ") ENGINE=InnoDB DEFAULT CHARSET=utf8mb4 COLLATE=utf8mb4_unicode_ci;".
Proof.
  rewrite (generate_ddl_layout "my table" sample_columns).
  - reflexivity.
  - repeat constructor; simpl; discriminate.
Defined.

(** C6, as stated, fails: the table name is sanitized but not
    checked against the reserved words, so the identifier
    [`select_col`] does not occur in the DDL. *)
Lemma select_table_not_suffixed :
  ~ contains_both (generate_ddl "select" [created_at_column]).
Proof. intros [H _]; vm_compute in H; discriminate H. Qed.

(** C6, amended. For the table name [select] and one column named
    [created-at], whatever its other fields, the DDL opens with the
    table identifier [`select`], unsuffixed, and the column
    definition opens with the identifier [`created_at`]; the
    identifier [`select_col`] is what a column named [select] is
    rendered as. *)
Theorem select_table_created_at_column
    (dt mt : string) (sv : list string) (nc uc tc : nat) (np : Q)
    (d : string) (cr : list string) :
  (exists rest,
     generate_ddl "select"
       [mkColumnAnalysis "created-at" dt mt sv nc uc tc np d cr]
     = "CREATE TABLE `select` (" ++ nl ++ "    `created_at`" ++ rest) /\
  (exists rest,
     _generate_column_definition
       (mkColumnAnalysis "select" dt mt sv nc uc tc np d cr)
     = "    `select_col`" ++ rest).
Proof.
  split.
  - destruct (column_definition_head
                (mkColumnAnalysis "created-at" dt mt sv nc uc tc np d cr))
      as [rest Hrest].
    exists (rest ++ nl ++ footer).
    rewrite generate_ddl_parts. unfold spec_ddl.
    cbn [map String.concat]. rewrite Hrest.
    change (column_identifier
              (mkColumnAnalysis "created-at" dt mt sv nc uc tc np d cr))
      with "created_at".
    change (header "select") with "CREATE TABLE `select` (".
    rewrite !append_assoc. reflexivity.
  - destruct (column_definition_head
                (mkColumnAnalysis "select" dt mt sv nc uc tc np d cr))
      as [rest Hrest].
    exists rest. rewrite Hrest. reflexivity.
Qed.

Lemma column_definition_comment (c : ColumnAnalysis) :
  description c <> "" ->
  exists head,
    _generate_column_definition c
    = head ++ " COMMENT '" ++ comment_text (description c) ++ "'".
Proof.
  intros Hd. apply nonempty_true in Hd.
  rewrite column_definition_parts, Hd. unfold null_clause.
  set (p := "    `" ++ column_identifier c ++ "`").
  set (cm := comment_text (description c)).
  destruct (mysql_type c) as [|t ts], (0 <? null_count c).
  - exists (p ++ " NULL"). rewrite append_assoc. reflexivity.
  - exists (p ++ " NOT NULL"). rewrite append_assoc. reflexivity.
  - exists (p ++ " " ++ String t ts ++ " NULL").
    cbn [filter nonempty String.concat]. rewrite !append_assoc. reflexivity.
  - exists (p ++ " " ++ String t ts ++ " NOT NULL").
    cbn [filter nonempty String.concat]. rewrite !append_assoc. reflexivity.
Qed.

Lemma comment_text_cut (pre post : string) :
  String.length (escape_quotes pre) = 99 ->
  comment_text (pre ++ "'" ++ post) = escape_quotes pre ++ "\".
Proof.
  intros Hlen. unfold comment_text, escape_quotes in *.
  rewrite replace_char_app.
  change 100 with (99 + 1). rewrite <- Hlen, take_app_more.
  reflexivity.
Qed.

(** C10. The comment of a column with a description is the
    description with every single quote escaped and the result cut
    to its first 100 characters, so the cut counts escaped
    characters: when the backslash of an escape lands at index 99,
    the comment ends in that backslash alone, right before the quote
    that closes the COMMENT clause. *)
Theorem comment_escaped_then_truncated :
  (forall c : ColumnAnalysis,
      description c <> "" ->
      exists head,
        _generate_column_definition c
        = head ++ " COMMENT '"
            ++ take 100 (replace_char "'"%char "\'" (description c)) ++ "'") /\
  (forall (c : ColumnAnalysis) (pre post : string),
      description c = pre ++ "'" ++ post ->
      String.length (replace_char "'"%char "\'" pre) = 99 ->
      exists head,
        _generate_column_definition c
        = head ++ " COMMENT '" ++ replace_char "'"%char "\'" pre
            ++ "\" ++ "'").
Proof.
  split.
  - intros c Hd. exact (column_definition_comment c Hd).
  - intros c pre post Hd Hlen.
    destruct (column_definition_comment c) as [head Hhead].
    + rewrite Hd. destruct pre; discriminate.
    + exists head. rewrite Hhead, Hd, (comment_text_cut pre post Hlen).
      now rewrite append_assoc.
Qed.

Lemma comment_escaped_then_truncated_witness :
  (exists head,
     _generate_column_definition long_comment_column
     = head ++ " COMMENT '"
         ++ take 100 (replace_char "'"%char "\'" (ninety_nine ++ "'" ++ "s"))
         ++ "'") /\
  (exists head,
     _generate_column_definition long_comment_column
     = head ++ " COMMENT '" ++ ninety_nine ++ "\" ++ "'").
Proof.
  split.
  - apply (proj1 comment_escaped_then_truncated long_comment_column).
    vm_compute; discriminate.
  - apply (proj2 comment_escaped_then_truncated long_comment_column
                 ninety_nine "s"); reflexivity.
Defined.

End DDLFacts.

(** ** Facts about the series operations *)

Module PandasFacts.
Import Pandas.

Section Lists.
Context {A B : Type}.

Lemma count_perm (p : A -> bool) (xs ys : list A) :
  Permutation xs ys -> count p xs = count p ys.
Proof.
  unfold count. induction 1 as [|x l l' _ IH|x y l|l l' l'' _ IH1 _ IH2];
    simpl; try reflexivity.
  - destruct (p x); simpl; congruence.
  - destruct (p x), (p y); reflexivity.
  - congruence.
Qed.

Lemma forallb_perm (p : A -> bool) (xs ys : list A) :
  Permutation xs ys -> forallb p xs = forallb p ys.
Proof.
  induction 1 as [|x l l' _ IH|x y l|l l' l'' _ IH1 _ IH2];
    simpl; try reflexivity.
  - now rewrite IH.
  - now rewrite !andb_assoc, (andb_comm (p y)).
  - congruence.
Qed.

Lemma dropna_perm (xs ys : list (option A)) :
  Permutation xs ys -> Permutation (dropna xs) (dropna ys).
Proof. apply Permutation_flat_map. Qed.

Lemma dropna_map_Some (xs : list A) : dropna (map Some xs) = xs.
Proof. induction xs as [|x xs IH]; simpl; congruence. Qed.

Lemma dropna_In (xs : list (option A)) (a : A) :
  In a (dropna xs) <-> In (Some a) xs.
Proof.
  unfold dropna. rewrite in_flat_map. split.
  - intros ([b|] & Hin & Ha); simpl in Ha; [|contradiction].
    destruct Ha as [->|[]]; exact Hin.
  - intros Hin. exists (Some a). split; [exact Hin | now left].
Qed.

Lemma count_notnull (xs : list (option A)) :
  count notnull xs = length (dropna xs).
Proof.
  unfold count. induction xs as [|[a|] xs IH]; simpl; congruence.
Qed.

Lemma count_le_length (p : A -> bool) (xs : list A) :
  count p xs <= length xs.
Proof. apply filter_length_le. Qed.

End Lists.

Lemma Qle_bool_false (a b : Q) : Qle_bool a b = false -> (b < a)%Q.
Proof.
  intros H. destruct (Qlt_le_dec b a) as [Hlt|Hle]; [exact Hlt|].
  apply Qle_bool_iff in Hle. congruence.
Qed.

Ltac q_cases :=
  repeat match goal with
    | |- context [Qle_bool ?a ?b] =>
        let E := fresh "E" in
        destruct (Qle_bool a b) eqn:E;
        [apply Qle_bool_iff in E | apply Qle_bool_false in E]
    end;
  simpl; try reflexivity; try (exfalso; lra).

(** The least value of a series is above a bound exactly when every
    value is, and dually for the greatest. *)
Lemma qmin_ge (b x y : Q) :
  Qle_bool b (qmin x y) = Qle_bool b x && Qle_bool b y.
Proof.
  unfold qmin. destruct (Qle_bool x y) eqn:Exy;
    [apply Qle_bool_iff in Exy | apply Qle_bool_false in Exy]; q_cases.
Qed.

Lemma qmax_le (b x y : Q) :
  Qle_bool (qmax x y) b = Qle_bool x b && Qle_bool y b.
Proof.
  unfold qmax. destruct (Qle_bool x y) eqn:Exy;
    [apply Qle_bool_iff in Exy | apply Qle_bool_false in Exy]; q_cases.
Qed.

Lemma fold_qmin_ge (b : Q) (r : list Q) (x : Q) :
  Qle_bool b (fold_left qmin r x) = forallb (Qle_bool b) (x :: r).
Proof.
  revert x; induction r as [|y r IH]; intros x; simpl.
  - now rewrite andb_true_r.
  - rewrite IH. simpl. now rewrite qmin_ge, andb_assoc.
Qed.

Lemma fold_qmax_le (b : Q) (r : list Q) (x : Q) :
  Qle_bool (fold_left qmax r x) b = forallb (fun v => Qle_bool v b) (x :: r).
Proof.
  revert x; induction r as [|y r IH]; intros x; simpl.
  - now rewrite andb_true_r.
  - rewrite IH. simpl. now rewrite qmax_le, andb_assoc.
Qed.

Lemma ge_q_min (xs : list Q) (b : Z) :
  ge_q (series_min xs) b
  = negb (is_nil xs) && forallb (Qle_bool (inject_Z b)) xs.
Proof. destruct xs as [|x r]; [reflexivity | apply fold_qmin_ge]. Qed.

Lemma le_q_max (xs : list Q) (b : Z) :
  le_q (series_max xs) b
  = negb (is_nil xs) && forallb (fun v => Qle_bool v (inject_Z b)) xs.
Proof. destruct xs as [|x r]; [reflexivity | apply fold_qmax_le]. Qed.

Lemma is_nil_perm {A : Type} (xs ys : list A) :
  Permutation xs ys -> is_nil xs = is_nil ys.
Proof.
  intros H. destruct xs, ys; try reflexivity.
  - now apply Permutation_nil_cons in H.
  - symmetry in H. now apply Permutation_nil_cons in H.
Qed.

Lemma ge_q_min_perm (xs ys : list Q) (b : Z) :
  Permutation xs ys -> ge_q (series_min xs) b = ge_q (series_min ys) b.
Proof.
  intros H. rewrite !ge_q_min.
  now rewrite (is_nil_perm _ _ H), (forallb_perm _ _ _ H).
Qed.

Lemma le_q_max_perm (xs ys : list Q) (b : Z) :
  Permutation xs ys -> le_q (series_max xs) b = le_q (series_max ys) b.
Proof.
  intros H. rewrite !le_q_max.
  now rewrite (is_nil_perm _ _ H), (forallb_perm _ _ _ H).
Qed.

Lemma fold_max_list_max (r : list nat) (x : nat) :
  fold_left Nat.max r x = Nat.max x (list_max r).
Proof.
  revert x; induction r as [|y r IH]; intros x; simpl.
  - lia.
  - rewrite IH. lia.
Qed.

Lemma list_max_perm (xs ys : list nat) :
  Permutation xs ys -> list_max xs = list_max ys.
Proof.
  induction 1 as [|x l l' _ IH|x y l|l l' l'' _ IH1 _ IH2]; simpl;
    try reflexivity; try lia.
Qed.

Lemma max_nat_list_max (xs : list nat) :
  max_nat xs = if is_nil xs then None else Some (list_max xs).
Proof.
  destruct xs as [|x r]; [reflexivity|].
  simpl. now rewrite fold_max_list_max.
Qed.

Lemma max_nat_perm (xs ys : list nat) :
  Permutation xs ys -> max_nat xs = max_nat ys.
Proof.
  intros H. rewrite !max_nat_list_max.
  now rewrite (is_nil_perm _ _ H), (list_max_perm _ _ H).
Qed.

End PandasFacts.

(** ** The classifier *)

Module EngineFacts.
Import PyStr PyStrFacts Regex Pandas PandasFacts.
Import SchemaInferenceEngine EngineSpec.

Section WithLibrary.
Context {lib : Numeric}.

(** *** Order of the cells *)

Lemma detect_in_perm (ps : list (string * regex)) (xs ys : list string) :
  Permutation xs ys -> detect_in ps xs = detect_in ps ys.
Proof.
  intros H. induction ps as [|[n r] ps IH]; simpl; [reflexivity|].
  now rewrite (count_perm _ _ _ H), (Permutation_length H), IH.
Qed.

Lemma classify_integer_perm (xs ys : list Q) :
  Permutation xs ys ->
  _classify_integer_type xs = _classify_integer_type ys.
Proof.
  intros H. unfold _classify_integer_type.
  now rewrite !(ge_q_min_perm xs ys _ H), !(le_q_max_perm xs ys _ H).
Qed.

Lemma classify_decimal_perm (xs ys : list Q) :
  Permutation xs ys ->
  _classify_decimal_type xs = _classify_decimal_type ys.
Proof.
  intros H. unfold _classify_decimal_type.
  rewrite (max_nat_perm (dropna (map decimal_places xs))
                        (dropna (map decimal_places ys)));
    [reflexivity|].
  now apply dropna_perm, Permutation_map.
Qed.

Lemma detect_numeric_perm (xs ys : list string) :
  Permutation xs ys ->
  _detect_numeric_types xs = _detect_numeric_types ys.
Proof.
  intros H. unfold _detect_numeric_types.
  assert (Hn : Permutation (map to_numeric xs) (map to_numeric ys))
    by now apply Permutation_map.
  pose proof (dropna_perm _ _ Hn) as Hv.
  rewrite (count_perm _ _ _ Hn), (Permutation_length H),
    (forallb_perm _ _ _ Hv), (classify_integer_perm _ _ Hv),
    (classify_decimal_perm _ _ Hv).
  reflexivity.
Qed.

Lemma analyze_string_type_perm (xs ys : list string) :
  Permutation xs ys ->
  _analyze_string_type xs = _analyze_string_type ys.
Proof.
  intros H. unfold _analyze_string_type.
  rewrite (max_nat_perm (map String.length xs) (map String.length ys));
    [reflexivity | now apply Permutation_map].
Qed.

Lemma infer_types_non_null (series series' : list (option string)) :
  Permutation (dropna series) (dropna series') ->
  _infer_types series = _infer_types series'.
Proof.
  intros H. unfold _infer_types.
  assert (Hs : Permutation (map strip (dropna series))
                           (map strip (dropna series')))
    by now apply Permutation_map.
  unfold _detect_patterns.
  rewrite (Permutation_length H), (detect_in_perm _ _ _ Hs),
    (detect_numeric_perm _ _ H), (analyze_string_type_perm _ _ Hs).
  reflexivity.
Qed.

(** C8. The pair (logical type, target type) is a function of the
    non-null values of the column, whatever their order: two
    columns whose cells are a permutation of each other, and more
    generally two columns with the same non-null values up to
    order, are classified alike; the same column is always
    classified alike. *)
Theorem infer_types_order_independent
    (series series' : list (option string)) :
  (Permutation series series' ->
   _infer_types series = _infer_types series') /\
  (Permutation (dropna series) (dropna series') ->
   _infer_types series = _infer_types series') /\
  (series = series' -> _infer_types series = _infer_types series').
Proof.
  repeat split.
  - intros H. now apply infer_types_non_null, dropna_perm.
  - apply infer_types_non_null.
  - intros ->. reflexivity.
Qed.

(** *** Integer ranges *)

Lemma ge_q_min_all (xs : list Q) (b : Z) (v : Q) :
  ge_q (series_min xs) b = true -> In v xs -> (inject_Z b <= v)%Q.
Proof.
  rewrite ge_q_min. intros H Hin.
  apply andb_true_iff in H as [_ H].
  rewrite forallb_forall in H. now apply Qle_bool_iff, H.
Qed.

Lemma le_q_max_all (xs : list Q) (b : Z) (v : Q) :
  le_q (series_max xs) b = true -> In v xs -> (v <= inject_Z b)%Q.
Proof.
  rewrite le_q_max. intros H Hin.
  apply andb_true_iff in H as [_ H].
  rewrite forallb_forall in H. now apply Qle_bool_iff, (H v).
Qed.

Lemma pattern_type_not_integer (p : string) :
  mysql_integer_range (_get_mysql_type_for_pattern p) = None.
Proof.
  unfold _get_mysql_type_for_pattern, type_mapping, dict_get.
  repeat match goal with
    | |- context [String.eqb ?a p] => destruct (String.eqb a p)
    end; reflexivity.
Qed.

Lemma decimal_type_not_integer (xs : list Q) :
  mysql_integer_range (snd (_classify_decimal_type xs)) = None.
Proof.
  unfold _classify_decimal_type.
  destruct (max_nat _) as [m|]; [|reflexivity].
  destruct (m <=? 4); [reflexivity|]. destruct (m <=? 6); reflexivity.
Qed.

Lemma string_type_not_integer (xs : list string) :
  mysql_integer_range (snd (_analyze_string_type xs)) = None.
Proof.
  unfold _analyze_string_type.
  destruct (max_nat _) as [m|]; [|reflexivity].
  destruct (m <=? 10); [reflexivity|].
  destruct (m <=? 100); [reflexivity|].
  destruct (m <=? 255); [reflexivity|].
  destruct (m <=? 1000); reflexivity.
Qed.

Lemma classify_integer_bounds (xs : list Q) (lo hi : Z) (v : Q) :
  mysql_integer_range (snd (_classify_integer_type xs)) = Some (lo, hi) ->
  In v xs ->
  (In (snd (_classify_integer_type xs)) checked_types -> in_range v lo hi) /\
  (snd (_classify_integer_type xs) = "BIGINT UNSIGNED" -> (0 <= v)%Q).
Proof.
  unfold _classify_integer_type, in_range.
  intros Hr Hin.
  destruct (ge_q (series_min xs) 0) eqn:E0.
  - pose proof (ge_q_min_all _ _ _ E0 Hin) as H0.
    destruct (le_q (series_max xs) 255) eqn:E1;
      [|destruct (le_q (series_max xs) 65535) eqn:E2;
        [|destruct (le_q (series_max xs) 4294967295) eqn:E3]];
      simpl in Hr |- *; inversion Hr; subst lo hi;
      (split; [intros Hc | intros; exact H0]).
    + split; [exact H0 | exact (le_q_max_all _ _ _ E1 Hin)].
    + split; [exact H0 | exact (le_q_max_all _ _ _ E2 Hin)].
    + split; [exact H0 | exact (le_q_max_all _ _ _ E3 Hin)].
    + exfalso. simpl in Hc.
      repeat (destruct Hc as [Hc|Hc]; [discriminate Hc|]); exact Hc.
  - destruct (ge_q (series_min xs) (-128) && le_q (series_max xs) 127) eqn:E1;
      [|destruct (ge_q (series_min xs) (-32768)
                  && le_q (series_max xs) 32767) eqn:E2;
        [|destruct (ge_q (series_min xs) (-2147483648)
                    && le_q (series_max xs) 2147483647) eqn:E3]];
      simpl in Hr |- *; inversion Hr; subst lo hi;
      (split; [intros Hc | intros Hb; discriminate Hb]).
    + apply andb_true_iff in E1 as [Ea Eb].
      split; [exact (ge_q_min_all _ _ _ Ea Hin) | exact (le_q_max_all _ _ _ Eb Hin)].
    + apply andb_true_iff in E2 as [Ea Eb].
      split; [exact (ge_q_min_all _ _ _ Ea Hin) | exact (le_q_max_all _ _ _ Eb Hin)].
    + apply andb_true_iff in E3 as [Ea Eb].
      split; [exact (ge_q_min_all _ _ _ Ea Hin) | exact (le_q_max_all _ _ _ Eb Hin)].
    + exfalso. simpl in Hc.
      repeat (destruct Hc as [Hc|Hc]; [discriminate Hc|]); exact Hc.
Qed.

(** C1, amended. When the classifier picks TINYINT, SMALLINT or INT,
    signed or unsigned, every number observed in the column lies in
    the range of the type picked; when it picks BIGINT UNSIGNED every
    observed number is at least 0. The two BIGINT types are the
    remaining case of the selection and no bound of theirs is
    checked. *)
Theorem checked_integer_types_fit
    (series : list (option string)) (lo hi : Z) (v : Q) :
  mysql_integer_range (snd (_infer_types series)) = Some (lo, hi) ->
  In v (observed_numbers series) ->
  (In (snd (_infer_types series)) checked_types -> in_range v lo hi) /\
  (snd (_infer_types series) = "BIGINT UNSIGNED" -> (0 <= v)%Q).
Proof.
  unfold _infer_types, observed_numbers.
  destruct (length (dropna series) =? 0); [discriminate|].
  destruct (_detect_patterns _) as [p|].
  - simpl snd. now rewrite pattern_type_not_integer.
  - unfold _detect_numeric_types.
    destruct (below_numeric_threshold _ _).
    + now rewrite string_type_not_integer.
    + destruct (forallb is_integral _).
      * apply classify_integer_bounds.
      * now rewrite decimal_type_not_integer.
Qed.

(** *** Pattern detection *)

Lemma above_threshold_accepted (pattern : regex) (values : list string) :
  above_threshold (count (re_match true pattern) values) (length values) = true
  <-> accepted pattern values.
Proof. unfold above_threshold, accepted. apply Nat.ltb_lt. Qed.

Lemma detect_in_first (ps : list (string * regex)) (values : list string)
    (p : string) :
  detect_in ps values = Some p <->
  exists i re,
    nth_error ps i = Some (p, re) /\ accepted re values /\
    forall j q, j < i -> nth_error ps j = Some q -> ~ accepted (snd q) values.
Proof.
  induction ps as [|[n r] ps IH]; simpl.
  - split; [discriminate|]. intros (i & re & H & _). now destruct i.
  - destruct (above_threshold _ _) eqn:E.
    + apply above_threshold_accepted in E. split.
      * intros [= <-]. exists 0, r. repeat split; [exact E|]. intros j q Hj; lia.
      * intros (i & re & Hi & Hacc & Hfirst). destruct i as [|i].
        -- simpl in Hi. now inversion Hi.
        -- exfalso. apply (Hfirst 0 (n, r)); [lia | reflexivity | exact E].
    + assert (Hn : ~ accepted r values).
      { intros Ha. apply above_threshold_accepted in Ha. congruence. }
      rewrite IH. split.
      * intros (i & re & Hi & Hacc & Hfirst). exists (S i), re.
        repeat split; [exact Hi | exact Hacc |].
        intros [|j] q Hj Hq; simpl in Hq.
        -- now inversion Hq.
        -- apply (Hfirst j q); [lia | exact Hq].
      * intros (i & re & Hi & Hacc & Hfirst). destruct i as [|i].
        -- simpl in Hi. inversion Hi; subst. contradiction.
        -- exists i, re. repeat split; [exact Hi | exact Hacc |].
           intros j q Hj Hq. apply (Hfirst (S j) q); [lia | exact Hq].
Qed.

Lemma detect_in_none (ps : list (string * regex)) (values : list string) :
  detect_in ps values = None <->
  forall q, In q ps -> ~ accepted (snd q) values.
Proof.
  induction ps as [|[n r] ps IH]; simpl.
  - split; [intros _ q [] | reflexivity].
  - destruct (above_threshold _ _) eqn:E.
    + apply above_threshold_accepted in E. split; [discriminate|].
      intros H. exfalso. exact (H (n, r) (or_introl eq_refl) E).
    + rewrite IH. split.
      * intros H q [<-|Hq]; [|now apply H].
        intros Ha. apply above_threshold_accepted in Ha. simpl in Ha. congruence.
      * intros H q Hq. apply H. now right.
Qed.

Lemma detect_in_nil (ps : list (string * regex)) : detect_in ps [] = None.
Proof. induction ps as [|[n r] ps IH]; simpl; [reflexivity | exact IH]. Qed.

Lemma infer_types_pattern (series : list (option string)) (p : string) :
  _detect_patterns (map strip (dropna series)) = Some p ->
  _infer_types series = (p, _get_mysql_type_for_pattern p).
Proof.
  intros H. unfold _infer_types.
  destruct (dropna series) as [|x xs] eqn:E.
  - unfold _detect_patterns in H. simpl map in H.
    rewrite detect_in_nil in H. discriminate H.
  - simpl length. simpl Nat.eqb. cbv iota. now rewrite H.
Qed.

(** C3. The patterns are tried in the order email, phone, url, date,
    time, boolean, uuid; one is returned exactly when strictly more
    than 80% of the values match it, case ignored, and none before it
    does; none is returned exactly when no pattern reaches that share;
    the pattern returned fixes the target type through the fixed
    table, and it is the classification of the column. *)
Theorem detect_patterns_first_accepted (values : list string) :
  map fst type_patterns
  = ["email"; "phone"; "url"; "date"; "time"; "boolean"; "uuid"] /\
  (forall p,
      _detect_patterns values = Some p <->
      exists i re,
        nth_error type_patterns i = Some (p, re) /\ accepted re values /\
        forall j q, j < i -> nth_error type_patterns j = Some q ->
                    ~ accepted (snd q) values) /\
  (_detect_patterns values = None <->
   forall q, In q type_patterns -> ~ accepted (snd q) values) /\
  map _get_mysql_type_for_pattern (map fst type_patterns)
  = ["VARCHAR(100)"; "VARCHAR(25)"; "VARCHAR(500)"; "DATE"; "TIME";
     "BOOLEAN"; "CHAR(36)"] /\
  (forall series p,
      values = map strip (dropna series) ->
      _detect_patterns values = Some p ->
      _infer_types series = (p, _get_mysql_type_for_pattern p)).
Proof.
  split; [reflexivity|]. split; [|split; [|split]].
  - intros p. apply detect_in_first.
  - apply detect_in_none.
  - reflexivity.
  - intros series p ->. apply infer_types_pattern.
Qed.

(** *** Numeric detection *)

Lemma classify_integer_tag (xs : list Q) :
  In (fst (_classify_integer_type xs)) integer_types.
Proof.
  unfold _classify_integer_type.
  repeat match goal with
    | |- context [if ?b then _ else _] => destruct b
    end; simpl; tauto.
Qed.

Lemma numeric_detected (values : list string) :
  _detect_numeric_types values <> None <->
  9 * length values <= 10 * numeric_count values.
Proof.
  unfold _detect_numeric_types, numeric_count, below_numeric_threshold.
  rewrite count_notnull.
  destruct (Nat.ltb_spec (10 * length (dropna (map to_numeric values)))
                         (9 * length values)) as [Hlt|Hge].
  - split; [congruence | lia].
  - split; [intros _; exact Hge|]. intros _.
    destruct (forallb is_integral _); discriminate.
Qed.

Lemma infer_types_numeric_phase (series : list (option string)) :
  _detect_patterns (map strip (dropna series)) = None ->
  dropna series <> [] ->
  _infer_types series
  = match _detect_numeric_types (dropna series) with
    | Some numeric_type => numeric_type
    | None => _analyze_string_type (map strip (dropna series))
    end.
Proof.
  intros Hp Hne. unfold _infer_types. rewrite Hp.
  destruct (dropna series) as [|x xs]; [congruence | reflexivity].
Qed.

Lemma numeric_rejected (values : list string) :
  10 * numeric_count values < 9 * length values ->
  _detect_numeric_types values = None.
Proof.
  intros H. destruct (_detect_numeric_types values) eqn:E; [|reflexivity].
  assert (Hs : _detect_numeric_types values <> None) by congruence.
  apply numeric_detected in Hs. lia.
Qed.

Lemma numeric_integral (values : list string) :
  9 * length values <= 10 * numeric_count values ->
  forallb is_integral (dropna (map to_numeric values)) = true ->
  _detect_numeric_types values
  = Some (_classify_integer_type (dropna (map to_numeric values))).
Proof.
  intros Hn Hint. unfold _detect_numeric_types, below_numeric_threshold.
  unfold numeric_count in Hn. rewrite count_notnull.
  destruct (Nat.ltb_spec (10 * length (dropna (map to_numeric values)))
                         (9 * length values)) as [Hlt|_]; [lia|].
  now rewrite Hint.
Qed.

(** C4. A column that reaches the numeric phase is numeric exactly
    when at least 90% of its non-null values coerce to a number, and
    is classified by string length otherwise; with 91 of 100 values
    numeric and integral it gets an integer type, and with 89 of 100
    numeric it is classified by string length. *)
Theorem numeric_threshold :
  (forall values : list string,
      _detect_numeric_types values <> None <->
      9 * length values <= 10 * numeric_count values) /\
  (forall series : list (option string),
      _detect_patterns (map strip (dropna series)) = None ->
      dropna series <> [] ->
      10 * numeric_count (dropna series) < 9 * length (dropna series) ->
      _infer_types series = _analyze_string_type (map strip (dropna series))) /\
  (forall series : list (option string),
      _detect_patterns (map strip (dropna series)) = None ->
      length (dropna series) = 100 ->
      numeric_count (dropna series) = 91 ->
      (forall v, In v (observed_numbers series) -> is_integral v = true) ->
      In (fst (_infer_types series)) integer_types) /\
  (forall series : list (option string),
      _detect_patterns (map strip (dropna series)) = None ->
      length (dropna series) = 100 ->
      numeric_count (dropna series) = 89 ->
      _infer_types series = _analyze_string_type (map strip (dropna series))).
Proof.
  split; [exact numeric_detected|]. split; [|split].
  - intros series Hp Hne Hlt.
    rewrite (infer_types_numeric_phase _ Hp Hne).
    now rewrite (numeric_rejected _ Hlt).
  - intros series Hp Hlen Hnum Hint.
    assert (Hne : dropna series <> []).
    { intros E. rewrite E in Hlen. discriminate Hlen. }
    rewrite (infer_types_numeric_phase _ Hp Hne).
    apply forallb_forall in Hint. unfold observed_numbers in Hint.
    rewrite (numeric_integral (dropna series)).
    + apply classify_integer_tag.
    + rewrite Hlen, Hnum. lia.
    + exact Hint.
  - intros series Hp Hlen Hnum.
    assert (Hne : dropna series <> []).
    { intros E. rewrite E in Hlen. discriminate Hlen. }
    rewrite (infer_types_numeric_phase _ Hp Hne).
    rewrite (numeric_rejected (dropna series)); [reflexivity|].
    rewrite Hlen, Hnum. lia.
Qed.

(** *** Columns without values *)

Lemma count_null_all {A : Type} (xs : list (option A)) :
  dropna xs = [] -> count (fun c => negb (notnull c)) xs = length xs.
Proof.
  unfold count. induction xs as [|[a|] xs IH]; simpl; intros H.
  - reflexivity.
  - discriminate H.
  - now rewrite IH.
Qed.

Lemma percent_full (n : nat) : 0 < n -> (percent n n == 100)%Q.
Proof.
  intros Hn. destruct n as [|n]; [lia|].
  unfold percent, Qeq, Qmult. cbn [Qnum Qden inject_Z].
  rewrite Pos2Z.inj_mul, <- Pos.of_nat_succ, Zpos_P_of_succ_nat. lia.
Qed.

Lemma round_half_even_comp (q q' : Q) :
  (q == q')%Q -> round_half_even q = round_half_even q'.
Proof.
  intros H. unfold round_half_even.
  rewrite (Qfloor_comp _ _ H).
  now rewrite (Qcompare_comp _ _ (Qminus_comp _ _ H _ _ (Qeq_refl _))
                             _ _ (Qeq_refl (1 # 2))).
Qed.

Lemma fmt1_full (q : Q) : (q == 100)%Q -> fmt1 q = "100.0".
Proof.
  intros H. unfold fmt1.
  destruct (Qlt_le_dec q 0) as [Hneg|_]; [lra|].
  rewrite (round_half_even_comp (Qabs q * inject_Z 10) 1000).
  - reflexivity.
  - rewrite (Qabs_pos q) by lra. rewrite H. reflexivity.
Qed.

Lemma recommendations_no_values (series : list (option string))
    (dt : string) (np : Q) :
  dropna series = [] ->
  _generate_cleaning_recommendations series dt np = null_rate_finding np.
Proof.
  intros H. unfold _generate_cleaning_recommendations. rewrite H. reflexivity.
Qed.

(** C9. A column with no non-null value is classified
    [unknown]/[TEXT] and its analysis is defined: with no cell at all
    there is no finding, and with cells that are all null the only
    finding is the null-rate one, in its highest tier at 100%. *)
Theorem no_values_unknown (series : Series) :
  dropna (cells series) = [] ->
  _infer_types (cells series) = ("unknown", "TEXT") /\
  data_type (analyze_column series) = "unknown" /\
  mysql_type (analyze_column series) = "TEXT" /\
  (forall dt np,
      _generate_cleaning_recommendations (cells series) dt np
      = null_rate_finding np) /\
  (total_count (analyze_column series) = 0 ->
   cleaning_recommendations (analyze_column series) = []) /\
  (total_count (analyze_column series) <> 0 ->
   cleaning_recommendations (analyze_column series)
   = ["High null rate (100.0%) - evaluate column necessity"]).
Proof.
  intros H.
  assert (Hi : _infer_types (cells series) = ("unknown", "TEXT")).
  { unfold _infer_types. now rewrite H. }
  unfold analyze_column. rewrite Hi. cbn [data_type mysql_type total_count
    cleaning_recommendations].
  split; [reflexivity|]. split; [reflexivity|]. split; [reflexivity|].
  split; [|split].
  - intros dt np. now apply recommendations_no_values.
  - intros H0. rewrite recommendations_no_values by exact H.
    rewrite H0. reflexivity.
  - intros Hn. rewrite recommendations_no_values by exact H.
    rewrite (count_null_all _ H).
    assert (Hpos : 0 < length (cells series)) by lia.
    apply Nat.ltb_lt in Hpos as Hb. rewrite Hb.
    pose proof (percent_full _ Hpos) as Hp.
    unfold null_rate_finding.
    assert (Hq : qlt_bool 50 (percent (length (cells series))
                                      (length (cells series))) = true).
    { unfold qlt_bool. apply negb_true_iff.
      destruct (Qle_bool _ 50) eqn:E; [|reflexivity].
      apply Qle_bool_iff in E. lra. }
    rewrite Hq, (fmt1_full _ Hp). reflexivity.
Qed.

(** *** Dispatch of the quality analysis *)

Lemma recommendations_dispatch (series : list (option string))
    (dt : string) (np : Q) :
  _generate_cleaning_recommendations series dt np
  = if length (dropna series) =? 0 then null_rate_finding np
    else if contains "string" dt
    then (null_rate_finding np ++ _analyze_string_quality (dropna series))%list
    else if mem dt listed_numeric_types
    then (null_rate_finding np ++ _analyze_numeric_quality (dropna series))%list
    else if mem dt ["email"; "phone"; "url"]
    then (null_rate_finding np ++ _analyze_pattern_quality (dropna series) dt)%list
    else null_rate_finding np.
Proof. reflexivity. Qed.

Lemma recommendations_unsigned (series : list (option string))
    (dt : string) (np : Q) :
  In dt unsigned_types ->
  _generate_cleaning_recommendations series dt np = null_rate_finding np.
Proof.
  intros Hdt. rewrite recommendations_dispatch.
  destruct (length (dropna series) =? 0); [reflexivity|].
  simpl in Hdt.
  repeat (destruct Hdt as [<-|Hdt]; [reflexivity|]). contradiction.
Qed.

Lemma recommendations_listed (series : list (option string))
    (dt : string) (np : Q) :
  In dt listed_numeric_types ->
  dropna series <> [] ->
  _generate_cleaning_recommendations series dt np
  = (null_rate_finding np ++ _analyze_numeric_quality (dropna series))%list.
Proof.
  intros Hdt Hne. rewrite recommendations_dispatch.
  destruct (dropna series) as [|x xs]; [congruence|].
  simpl length. simpl Nat.eqb. cbv iota.
  simpl in Hdt.
  repeat (destruct Hdt as [<-|Hdt]; [reflexivity|]). contradiction.
Qed.

(** *** Target types are never empty *)

Lemma infer_types_type_nonempty (series : list (option string)) :
  snd (_infer_types series) <> "".
Proof.
  unfold _infer_types.
  destruct (length (dropna series) =? 0); [discriminate|].
  destruct (_detect_patterns _) as [p|].
  - unfold _get_mysql_type_for_pattern, type_mapping, dict_get. cbn [snd].
    repeat match goal with
      | |- context [String.eqb ?a p] => destruct (String.eqb a p)
      end; discriminate.
  - unfold _detect_numeric_types, _classify_integer_type,
      _classify_decimal_type, _analyze_string_type.
    repeat match goal with
      | |- context [if ?b then _ else _] => destruct b
      | |- context [match ?o with Some _ => _ | None => _ end] => destruct o
      end; cbn [snd append]; discriminate.
Qed.

Lemma analyze_column_type_nonempty (series : Series) :
  mysql_type (analyze_column series) <> "".
Proof.
  pose proof (infer_types_type_nonempty (cells series)) as H.
  unfold analyze_column.
  destruct (_infer_types (cells series)) as [dt mt]. exact H.
Qed.


End WithLibrary.

Import DecimalLiterals.

Lemma infer_types_order_independent_witness :
  _infer_types shuffled_a = _infer_types shuffled_b /\
  _infer_types shuffled_a = _infer_types (None :: shuffled_b) /\
  _infer_types shuffled_a = _infer_types shuffled_a.
Proof.
  assert (Hperm : Permutation shuffled_a shuffled_b).
  { unfold shuffled_a, shuffled_b.
    apply (Permutation_cons_app [Some "200"; Some "-1"; None] []); simpl.
    apply (Permutation_cons_app [Some "200"; Some "-1"] []); simpl.
    apply (Permutation_cons_app [Some "200"] []); simpl.
    apply Permutation_refl. }
  split; [|split].
  - apply (proj1 (infer_types_order_independent shuffled_a shuffled_b)).
    exact Hperm.
  - apply (proj1 (proj2 (infer_types_order_independent
                           shuffled_a (None :: shuffled_b)))).
    apply (PandasFacts.dropna_perm _ _ Hperm).
  - apply (proj2 (proj2 (infer_types_order_independent shuffled_a shuffled_a))).
    reflexivity.
Defined.

(** C1, as stated, fails: a 21-digit cell is coerced to a number
    beyond 64 bits, the column is classified BIGINT UNSIGNED, and the
    range of that type does not hold the number. *)
Lemma bigint_unsigned_overflow : ~ values_fit beyond_64_bits.
Proof.
  intros H.
  destruct (H 0%Z 18446744073709551615%Z (inject_Z 100000000000000000000))
    as [_ Hhi].
  - reflexivity.
  - left; reflexivity.
  - unfold Qle in Hhi; simpl in Hhi; lia.
Qed.

Lemma checked_integer_types_fit_witness :
  in_range (inject_Z (-1)) (-32768) 32767.
Proof.
  apply (checked_integer_types_fit shuffled_a (-32768) 32767 (inject_Z (-1))).
  - reflexivity.
  - right; left; reflexivity.
  - vm_compute; tauto.
Defined.


Lemma detect_patterns_first_accepted_witness :
  _infer_types emails = ("email", "VARCHAR(100)").
Proof.
  destruct (detect_patterns_first_accepted (map strip (dropna emails)))
    as (_ & _ & _ & _ & H).
  apply (H emails "email"); reflexivity.
Defined.

Lemma numeric_threshold_witness :
  In (fst (_infer_types (map Some (mostly_numeric 91)))) integer_types /\
  _infer_types (map Some (mostly_numeric 89)) = ("short_string", "VARCHAR(13)") /\
  _infer_types (map Some (mostly_numeric 50)) = ("short_string", "VARCHAR(13)").
Proof.
  destruct numeric_threshold as (_ & Hbelow & H91 & H89).
  split; [|split].
  - apply H91.
    + vm_compute; reflexivity.
    + vm_compute; reflexivity.
    + vm_compute; reflexivity.
    + apply forallb_forall. vm_compute; reflexivity.
  - rewrite H89.
    + vm_compute; reflexivity.
    + vm_compute; reflexivity.
    + vm_compute; reflexivity.
    + vm_compute; reflexivity.
  - rewrite Hbelow.
    + vm_compute; reflexivity.
    + vm_compute; reflexivity.
    + vm_compute; discriminate.
    + vm_compute. lia.
Defined.


Lemma no_values_unknown_witness :
  cleaning_recommendations (analyze_column no_rows) = [] /\
  cleaning_recommendations (analyze_column all_null)
  = ["High null rate (100.0%) - evaluate column necessity"].
Proof.
  split.
  - apply (no_values_unknown no_rows); reflexivity.
  - apply (no_values_unknown all_null); [reflexivity | discriminate].
Defined.

(** C2 at its failing input. A column of three cells [5] is
    classified [tinyint_unsigned] and gets no finding, although its
    values are identical and the numeric analysis, run on it, reports
    so; likewise the outlier of [skewed_quantity] is not reported. The
    signed sibling, three cells [-5], is analysed. By
    [recommendations_unsigned] every unsigned integer tag leaves the
    findings at the null-rate one. *)
Theorem unsigned_columns_not_analyzed :
  data_type (analyze_column constant_quantity) = "tinyint_unsigned" /\
  cleaning_recommendations (analyze_column constant_quantity) = [] /\
  _analyze_numeric_quality (dropna (cells constant_quantity))
  = ["All numeric values are identical - consider constant handling"] /\
  data_type (analyze_column skewed_quantity) = "tinyint_unsigned" /\
  cleaning_recommendations (analyze_column skewed_quantity) = [] /\
  _analyze_numeric_quality (dropna (cells skewed_quantity))
  = ["Statistical outliers detected (20.0%) - review extreme values"] /\
  data_type (analyze_column constant_balance) = "tinyint" /\
  cleaning_recommendations (analyze_column constant_balance)
  = ["All numeric values are identical - consider constant handling"].
Proof.
  do 7 (split; [vm_compute; reflexivity|]). vm_compute; reflexivity.
Qed.

(** The exact thresholds are the binary64 ones on every count out of
    every length up to 150. *)
Lemma thresholds_as_floats : FloatModel.agree_up_to 150 = true.
Proof. vm_compute. reflexivity. Qed.


End EngineFacts.

(** ** The scenarios of the specification, evaluated *)

Module Scenarios.
Import PyStr Pandas SchemaInferenceEngine DDLGenerator DecimalLiterals.

Example id_column :
  _infer_types [Some "1"; Some "2"; Some "3"; Some "4"; Some "5"]
  = ("tinyint_unsigned", "TINYINT UNSIGNED").
Proof. vm_compute. reflexivity. Qed.

Example email_column :
  let a := analyze_column (mkSeries "email" EngineSpec.emails) in
  mysql_type a = "VARCHAR(100)" /\ null_count a = 1 /\
  (null_percentage a == 20)%Q.
Proof. vm_compute. repeat split. Qed.

Example ninety_of_hundred :
  _infer_types (map Some (EngineSpec.mostly_numeric 90))
  = ("tinyint_unsigned", "TINYINT UNSIGNED").
Proof. vm_compute. reflexivity. Qed.

Example dates_are_phones :
  _infer_types [Some "2023-01-01"; Some "2023-01-02"; Some "2023-01-03"]
  = ("phone", "VARCHAR(25)").
Proof. vm_compute. reflexivity. Qed.

Example select_table_ddl :
  generate_ddl "select" [DDLSpec.created_at_column]
  = "CREATE TABLE `select` (" ++ nl
    ++ "    `created_at` VARCHAR(25) NOT NULL" ++ nl
    ++ ") ENGINE=InnoDB DEFAULT CHARSET=utf8mb4 COLLATE=utf8mb4_unicode_ci;".
Proof. vm_compute. reflexivity. Qed.

Example beyond_64_bits_column :
  _infer_types EngineSpec.beyond_64_bits
  = ("bigint_unsigned", "BIGINT UNSIGNED").
Proof. vm_compute. reflexivity. Qed.

Example long_identifier :
  _sanitize_identifier
    "9 a very long column header, with punctuation: far beyond the sixty-four characters"
  = "col_9_a_very_long_column_header__with_punctuation__far_beyond_tr".
Proof. vm_compute. reflexivity. Qed.

End Scenarios.

(** ** More on the DDL generator *)

Module DDLMore.
Import PyStr PyStrFacts DDLGenerator DDLSpec DDLFacts DDLNotions.




(** What sanitization returns is a usable identifier: it is not
    empty, has at most 64 characters, all of them letters, digits or
    underscores, and does not start with a digit. *)
Theorem sanitized_identifier_valid (x : string) :
  nonempty (_sanitize_identifier x) = true /\
  String.length (_sanitize_identifier x) <= 64 /\
  all_chars is_ident_char (_sanitize_identifier x) = true /\
  starts_with_digit (_sanitize_identifier x) = false.
Proof.
  destruct (sanitize_clean x) as (Hv & Hl & c & r & E & Hd).
  repeat split; try assumption; rewrite E; [reflexivity | exact Hd].
Qed.

(** Sanitization does not tell apart two names that differ only in
    characters outside [A-Za-z0-9_]: they get the same identifier, and
    so do the columns that carry them. *)
Theorem sanitize_collides (x y : string) :
  sub_invalid x = sub_invalid y ->
  _sanitize_identifier x = _sanitize_identifier y /\
  forall dt mt sv nc uc tc np d cr dt' mt' sv' nc' uc' tc' np' d' cr',
    column_identifier (mkColumnAnalysis x dt mt sv nc uc tc np d cr)
    = column_identifier (mkColumnAnalysis y dt' mt' sv' nc' uc' tc' np' d' cr').
Proof.
  intros H.
  assert (E : _sanitize_identifier x = _sanitize_identifier y).
  { unfold _sanitize_identifier. rewrite H.
    assert (Hn : nonempty x = nonempty y).
    { pose proof (f_equal String.length H) as Hl.
      unfold sub_invalid in Hl. rewrite !length_map_chars in Hl.
      destruct x, y; simpl in Hl; try discriminate; reflexivity. }
    now rewrite Hn. }
  split; [exact E|]. intros. unfold column_identifier. simpl name.
  now rewrite E.
Qed.

Lemma sanitize_collides_witness :
  _sanitize_identifier spaced_name = _sanitize_identifier dashed_name.
Proof. apply (sanitize_collides spaced_name dashed_name). reflexivity. Defined.









End DDLMore.

(** ** More on the classifier *)

Module EngineMore.
Import PyStr PyStrFacts Regex Pandas PandasFacts.
Import SchemaInferenceEngine EngineSpec EngineFacts EngineNotions.

Section WithLibrary.
Context {lib : Numeric}.

Lemma forallb_false_exists {A : Type} (p : A -> bool) (xs : list A) :
  forallb p xs = false -> exists v, In v xs /\ p v = false.
Proof.
  induction xs as [|x xs IH]; simpl; [discriminate|].
  destruct (p x) eqn:E; simpl.
  - intros H. destruct (IH H) as (v & Hin & Hv). exists v. split; [now right | exact Hv].
  - intros _. exists x. split; [now left | exact E].
Qed.

Lemma detect_in_name (ps : list (string * regex)) (values : list string)
    (p : string) :
  detect_in ps values = Some p -> In p (map fst ps).
Proof.
  induction ps as [|[n r] ps IH]; simpl; [discriminate|].
  destruct (above_threshold _ _).
  - intros [= <-]. now left.
  - intros H. right. now apply IH.
Qed.

Lemma infer_types_phase (series : list (option string)) :
  phase series (_infer_types series).
Proof.
  unfold _infer_types.
  destruct (dropna series) as [|x xs] eqn:E.
  - now apply phase_unknown.
  - simpl length. simpl Nat.eqb. cbv iota. rewrite <- E.
    assert (Hne : dropna series <> []) by (rewrite E; discriminate).
    destruct (_detect_patterns _) as [p|] eqn:Ep.
    + apply phase_pattern. exact (detect_in_name _ _ _ Ep).
    + unfold _detect_numeric_types, below_numeric_threshold.
      rewrite count_notnull.
      destruct (Nat.ltb_spec (10 * length (dropna (map to_numeric (dropna series))))
                             (9 * length (dropna series))) as [Hlt|Hge].
      * now apply phase_string.
      * destruct (forallb is_integral _) eqn:Ei.
        -- apply phase_integer; [|exact Ei]. unfold observed_numbers.
           intros E0. rewrite E0, E in Hge. simpl in Hge. lia.
        -- apply phase_decimal. exact Ei.
Qed.

Lemma pattern_types_fixed (p : string) :
  In p (map fst type_patterns) ->
  In (p, _get_mysql_type_for_pattern p) fixed_types.
Proof.
  simpl. intros H.
  repeat (destruct H as [<-|H]; [vm_compute; tauto|]). contradiction.
Qed.

Lemma integer_types_fixed (xs : list Q) :
  In (_classify_integer_type xs) fixed_types.
Proof.
  unfold _classify_integer_type.
  repeat match goal with
    | |- context [if ?b then _ else _] => destruct b
    end; simpl; tauto.
Qed.

Lemma decimal_types_fixed (xs : list Q) :
  In (_classify_decimal_type xs) fixed_types.
Proof.
  unfold _classify_decimal_type.
  destruct (max_nat _) as [m|]; [|simpl; tauto].
  destruct (m <=? 4); [simpl; tauto|].
  destruct (m <=? 6); simpl; tauto.
Qed.

(** The classifier only ever answers with one of 22 fixed pairs of
    tag and target type, or with a [VARCHAR] of width 10 to 20 tagged
    [short_string], or of width 31 to 120 tagged [string]. *)
Theorem infer_types_closed (series : list (option string)) :
  In (_infer_types series) fixed_types \/
  (exists n, 10 <= n <= 20 /\
             _infer_types series = ("short_string", varchar n)) \/
  (exists n, 31 <= n <= 120 /\
             _infer_types series = ("string", varchar n)).
Proof.
  destruct (infer_types_phase series) as [H|p H|H Hi|Hi|H].
  - left. simpl. tauto.
  - left. now apply pattern_types_fixed.
  - left. apply integer_types_fixed.
  - left. apply decimal_types_fixed.
  - unfold _analyze_string_type.
    destruct (max_nat _) as [m|]; [|left; simpl; tauto].
    destruct (Nat.leb_spec m 10).
    + right. left. exists (m + 10). split; [lia|].
      now rewrite Nat.min_r by lia.
    + destruct (Nat.leb_spec m 100).
      * right. right. exists (m + 20). split; [lia|].
        now rewrite Nat.min_r by lia.
      * left. destruct (m <=? 255); [simpl; tauto|].
        destruct (m <=? 1000); simpl; tauto.
Qed.

Lemma narrower_pattern (p : string) :
  narrower_range (_get_mysql_type_for_pattern p) = None /\
  ~ In (_get_mysql_type_for_pattern p) signed_targets.
Proof.
  unfold _get_mysql_type_for_pattern, type_mapping, dict_get.
  repeat match goal with
    | |- context [String.eqb ?a p] => destruct (String.eqb a p)
    end; (split; [reflexivity | simpl; intuition discriminate]).
Qed.

Lemma narrower_decimal (xs : list Q) :
  narrower_range (snd (_classify_decimal_type xs)) = None /\
  ~ In (snd (_classify_decimal_type xs)) signed_targets.
Proof.
  unfold _classify_decimal_type.
  destruct (max_nat _) as [m|];
    [destruct (m <=? 4); [|destruct (m <=? 6)]|];
    (split; [reflexivity | simpl; intuition discriminate]).
Qed.

Lemma narrower_string (xs : list string) :
  narrower_range (snd (_analyze_string_type xs)) = None /\
  ~ In (snd (_analyze_string_type xs)) signed_targets.
Proof.
  unfold _analyze_string_type.
  destruct (max_nat _) as [m|];
    [destruct (m <=? 10); [|destruct (m <=? 100);
       [|destruct (m <=? 255); [|destruct (m <=? 1000)]]]|];
    (split; [reflexivity | simpl; intuition discriminate]).
Qed.

Lemma le_q_max_false (xs : list Q) (b : Z) :
  xs <> [] -> le_q (series_max xs) b = false ->
  exists v, In v xs /\ (inject_Z b < v)%Q.
Proof.
  intros Hne H. rewrite le_q_max in H.
  destruct xs as [|x r]; [congruence|]. simpl is_nil in H. simpl negb in H.
  rewrite andb_true_l in H.
  destruct (forallb_false_exists _ _ H) as (v & Hin & Hv).
  exists v. split; [exact Hin | now apply Qle_bool_false].
Qed.

Lemma ge_q_min_false (xs : list Q) (b : Z) :
  xs <> [] -> ge_q (series_min xs) b = false ->
  exists v, In v xs /\ (v < inject_Z b)%Q.
Proof.
  intros Hne H. rewrite ge_q_min in H.
  destruct xs as [|x r]; [congruence|]. simpl is_nil in H. simpl negb in H.
  rewrite andb_true_l in H.
  destruct (forallb_false_exists _ _ H) as (v & Hin & Hv).
  exists v. split; [exact Hin | now apply Qle_bool_false].
Qed.

Lemma outside_range (xs : list Q) (lo hi : Z) :
  xs <> [] ->
  ge_q (series_min xs) lo && le_q (series_max xs) hi = false ->
  exists v, In v xs /\ ~ in_range v lo hi.
Proof.
  intros Hne H. apply andb_false_iff in H as [H|H].
  - destruct (ge_q_min_false _ _ Hne H) as (v & Hin & Hv).
    exists v. split; [exact Hin|]. intros [Hlo _]. lra.
  - destruct (le_q_max_false _ _ Hne H) as (v & Hin & Hv).
    exists v. split; [exact Hin|]. intros [_ Hhi]. lra.
Qed.

Lemma classify_integer_smallest (xs : list Q) :
  xs <> [] ->
  (forall lo hi,
      narrower_range (snd (_classify_integer_type xs)) = Some (lo, hi) ->
      exists v, In v xs /\ ~ in_range v lo hi) /\
  (In (snd (_classify_integer_type xs)) signed_targets ->
   exists v, In v xs /\ (v < 0)%Q) /\
  (In (snd (_classify_integer_type xs)) unsigned_targets ->
   forall v, In v xs -> (0 <= v)%Q).
Proof.
  intros Hne. unfold _classify_integer_type.
  destruct (ge_q (series_min xs) 0) eqn:E0.
  - assert (Hpos : forall v, In v xs -> (0 <= v)%Q)
      by (intros v Hv; exact (ge_q_min_all _ _ _ E0 Hv)).
    destruct (le_q (series_max xs) 255) eqn:E1;
      [|destruct (le_q (series_max xs) 65535) eqn:E2;
        [|destruct (le_q (series_max xs) 4294967295) eqn:E3]];
      (split; [intros lo hi Hn; simpl in Hn; inversion Hn; subst lo hi
              | split; [simpl; intuition discriminate | intros _; exact Hpos]]).
    + destruct (le_q_max_false _ _ Hne E1) as (v & Hin & Hv).
      exists v. split; [exact Hin|]. intros [_ Hhi]. lra.
    + destruct (le_q_max_false _ _ Hne E2) as (v & Hin & Hv).
      exists v. split; [exact Hin|]. intros [_ Hhi]. lra.
    + destruct (le_q_max_false _ _ Hne E3) as (v & Hin & Hv).
      exists v. split; [exact Hin|]. intros [_ Hhi]. lra.
  - assert (Hneg : exists v, In v xs /\ (v < 0)%Q)
      by exact (ge_q_min_false _ _ Hne E0).
    destruct (ge_q (series_min xs) (-128) && le_q (series_max xs) 127) eqn:E1;
      [|destruct (ge_q (series_min xs) (-32768)
                  && le_q (series_max xs) 32767) eqn:E2;
        [|destruct (ge_q (series_min xs) (-2147483648)
                    && le_q (series_max xs) 2147483647) eqn:E3]];
      (split; [intros lo hi Hn; simpl in Hn; inversion Hn; subst lo hi
              | split; [intros _; exact Hneg | simpl; intuition discriminate]]).
    + exact (outside_range _ _ _ Hne E1).
    + exact (outside_range _ _ _ Hne E2).
    + exact (outside_range _ _ _ Hne E3).
Qed.

(** The integer type picked is the smallest that fits: when a
    narrower type of the same signedness exists, some observed number
    lies outside its range; a signed type is picked only when some
    observed number is negative. *)
Theorem integer_type_is_smallest (series : list (option string)) :
  (forall lo hi,
      narrower_range (snd (_infer_types series)) = Some (lo, hi) ->
      exists v, In v (observed_numbers series) /\ ~ in_range v lo hi) /\
  (In (snd (_infer_types series)) signed_targets ->
   exists v, In v (observed_numbers series) /\ (v < 0)%Q).
Proof.
  destruct (infer_types_phase series) as [H|p H|H Hi|Hi|H].
  - split; [discriminate | simpl; intuition discriminate].
  - destruct (narrower_pattern p) as [Hn Hs]. simpl snd.
    split; [rewrite Hn; discriminate | intros Hin; contradiction].
  - destruct (classify_integer_smallest _ H) as (H1 & H2 & _).
    split; assumption.
  - destruct (narrower_decimal (observed_numbers series)) as [Hn Hs].
    split; [rewrite Hn; discriminate | intros Hin; contradiction].
  - destruct (narrower_string (map strip (dropna series))) as [Hn Hs].
    split; [rewrite Hn; discriminate | intros Hin; contradiction].
Qed.

(** *** Widths of the string types *)

Lemma length_le_list_max (xs : list string) (v : string) :
  In v xs -> String.length v <= list_max (map String.length xs).
Proof.
  intros H.
  assert (Hall : Forall (fun k => k <= list_max (map String.length xs))
                        (map String.length xs))
    by now apply list_max_le.
  rewrite Forall_forall in Hall. apply Hall. now apply in_map.
Qed.

(** For a column with a value, the string type is decided by the
    greatest length [m] of its values: the width is [m + 10] up to 10
    and [m + 20] up to 100, the caps of 50 and 255 never being
    reached, so every value is shorter than the width declared. *)
Theorem varchar_width (xs : list string) (v : string) :
  In v xs ->
  let m := list_max (map String.length xs) in
  String.length v <= m /\
  (m <= 10 -> _analyze_string_type xs = ("short_string", varchar (m + 10))) /\
  (10 < m <= 100 -> _analyze_string_type xs = ("string", varchar (m + 20))) /\
  (100 < m <= 255 -> _analyze_string_type xs = ("string", "VARCHAR(255)")) /\
  (255 < m <= 1000 -> _analyze_string_type xs = ("medium_string", "TEXT")) /\
  (1000 < m -> _analyze_string_type xs = ("long_string", "LONGTEXT")).
Proof.
  intros Hin m. split; [now apply length_le_list_max|].
  unfold _analyze_string_type. rewrite max_nat_list_max.
  destruct xs as [|x xs]; [contradiction|].
  change (is_nil (map String.length (x :: xs))) with false. cbv iota.
  fold m.
  repeat split; intros H.
  - destruct (Nat.leb_spec m 10); [|lia]. now rewrite Nat.min_r by lia.
  - destruct (Nat.leb_spec m 10); [lia|].
    destruct (Nat.leb_spec m 100); [|lia]. now rewrite Nat.min_r by lia.
  - destruct (Nat.leb_spec m 10); [lia|].
    destruct (Nat.leb_spec m 100); [lia|].
    destruct (Nat.leb_spec m 255); [reflexivity | lia].
  - destruct (Nat.leb_spec m 10); [lia|].
    destruct (Nat.leb_spec m 100); [lia|].
    destruct (Nat.leb_spec m 255); [lia|].
    destruct (Nat.leb_spec m 1000); [reflexivity | lia].
  - destruct (Nat.leb_spec m 10); [lia|].
    destruct (Nat.leb_spec m 100); [lia|].
    destruct (Nat.leb_spec m 255); [lia|].
    destruct (Nat.leb_spec m 1000); [lia | reflexivity].
Qed.

(** *** The statistics of a column *)

Lemma nodup_length_le (xs : list string) :
  length (nodup string_dec xs) <= length xs.
Proof.
  induction xs as [|x xs IH]; simpl; [lia|].
  destruct (in_dec string_dec x xs); simpl; lia.
Qed.

Lemma count_null_split {A : Type} (xs : list (option A)) :
  count (fun c => negb (notnull c)) xs + length (dropna xs) = length xs.
Proof.
  unfold count. induction xs as [|[a|] xs IH]; simpl; lia.
Qed.

(** The counts of an analysis add up: null and non-null cells make
    the total, the distinct values are among the non-null ones (at
    least one when there is any), the samples are the first five
    non-null cells, and name and description are the header and the
    empty string. *)
Theorem analyze_column_counts (series : Series) :
  let a := analyze_column series in
  name a = series_name series /\
  description a = "" /\
  total_count a = length (cells series) /\
  null_count a + length (dropna (cells series)) = total_count a /\
  unique_count a <= length (dropna (cells series)) /\
  (dropna (cells series) <> [] -> 1 <= unique_count a) /\
  sample_values a = firstn 5 (dropna (cells series)).
Proof.
  unfold analyze_column. destruct (_infer_types (cells series)) as [dt mt].
  cbn [name description total_count null_count unique_count sample_values].
  repeat split.
  - apply count_null_split.
  - apply nodup_length_le.
  - intros Hne. unfold nunique.
    destruct (dropna (cells series)) as [|x xs] eqn:E; [congruence|].
    assert (Hin : In x (nodup string_dec (x :: xs)))
      by (apply nodup_In; now left).
    destruct (nodup string_dec (x :: xs)); [contradiction | simpl; lia].
  - destruct (dropna (cells series)); reflexivity.
Qed.

Lemma percent_range (k n : nat) :
  0 < n -> k <= n -> (0 <= percent k n)%Q /\ (percent k n <= 100)%Q.
Proof.
  intros Hn Hk. destruct n as [|n]; [lia|].
  unfold percent, Qle, Qmult. cbn [Qnum Qden inject_Z].
  rewrite Pos2Z.inj_mul, <- Pos.of_nat_succ, Zpos_P_of_succ_nat. lia.
Qed.

Lemma round_half_even_range (q : Q) (N : Z) :
  (0 <= q)%Q -> (q <= inject_Z N)%Q ->
  (0 <= round_half_even q <= N)%Z.
Proof.
  intros H0 HN. unfold round_half_even.
  pose proof (Qfloor_le q) as Hfl.
  assert (Hf0 : (0 <= Qfloor q)%Z)
    by (change 0%Z with (Qfloor 0); now apply Qfloor_resp_le).
  assert (HfN : (Qfloor q <= N)%Z)
    by (rewrite <- (Qfloor_Z N); now apply Qfloor_resp_le).
  cbv zeta.
  destruct (Qcompare_spec (q - inject_Z (Qfloor q)) (1 # 2)) as [He|Hl|Hg].
  - destruct (Z.eq_dec (Qfloor q) N) as [E|E]; [rewrite E in *; lra|].
    destruct (Z.even _); lia.
  - lia.
  - destruct (Z.eq_dec (Qfloor q) N) as [E|E]; [rewrite E in *; lra | lia].
Qed.

(** The null percentage of an analysis lies between 0 and 100, and is
    0 for a column without cells. *)
Theorem null_percentage_range (series : Series) :
  (0 <= null_percentage (analyze_column series))%Q /\
  (null_percentage (analyze_column series) <= 100)%Q /\
  (cells series = [] -> (null_percentage (analyze_column series) == 0)%Q).
Proof.
  unfold analyze_column. destruct (_infer_types (cells series)) as [dt mt].
  cbn [null_percentage].
  set (n := length (cells series)).
  set (k := count (fun c => negb (notnull c)) (cells series)).
  assert (Hk : k <= n) by apply count_le_length.
  assert (Hr : (0 <= (if 0 <? n then percent k n else 0))%Q /\
               ((if 0 <? n then percent k n else 0) <= 100)%Q).
  { destruct (Nat.ltb_spec 0 n); [now apply percent_range | split; lra]. }
  destruct Hr as [Hlo Hhi].
  set (p := if 0 <? n then percent k n else 0%Q) in *.
  assert (Hround : (0 <= round_half_even (p * inject_Z 100) <= 10000)%Z).
  { apply round_half_even_range.
    - change (inject_Z 100) with 100%Q. nra.
    - change (inject_Z 100) with 100%Q. change (inject_Z 10000) with 10000%Q. nra. }
  repeat split.
  - unfold round2, Qle. cbn [Qnum Qden]. lia.
  - unfold round2, Qle. cbn [Qnum Qden]. lia.
  - intros E. unfold p, n. rewrite E. reflexivity.
Qed.

(** *** Composition with the DDL generator *)

Lemma no_null_count {A : Type} (xs : list (option A)) :
  (0 <? count (fun c => negb (notnull c)) xs) = negb (forallb notnull xs).
Proof.
  unfold count. induction xs as [|[a|] xs IH]; simpl; [reflexivity | exact IH | reflexivity].
Qed.

(** The definition generated for a column straight from its analysis:
    the quoted identifier, the inferred target type, and [NOT NULL]
    exactly when no cell of the column is null; there is no comment
    before descriptions are attached. *)
Theorem analyzed_column_definition (series : Series) :
  DDLGenerator._generate_column_definition (analyze_column series)
  = "    `" ++ DDLSpec.column_identifier (analyze_column series) ++ "` "
    ++ snd (_infer_types (cells series)) ++ " "
    ++ (if forallb notnull (cells series) then "NOT NULL" else "NULL").
Proof.
  rewrite (DDLFacts.column_definition_layout _
             (analyze_column_type_nonempty series)).
  unfold DDLSpec.spec_column_definition, DDLSpec.comment_clause,
    DDLSpec.null_clause.
  assert (Hd : description (analyze_column series) = "")
    by (unfold analyze_column; destruct (_infer_types (cells series));
        reflexivity).
  assert (Ht : mysql_type (analyze_column series)
               = snd (_infer_types (cells series)))
    by (unfold analyze_column; destruct (_infer_types (cells series));
        reflexivity).
  assert (Hn : null_count (analyze_column series)
               = count (fun c => negb (notnull c)) (cells series))
    by (unfold analyze_column; destruct (_infer_types (cells series));
        reflexivity).
  rewrite Hd, Ht, Hn, no_null_count. simpl nonempty. cbv iota.
  rewrite append_nil_r.
  destruct (forallb notnull (cells series)); reflexivity.
Qed.


(** *** The finding about identical values *)




(** *** Values that look like phone numbers *)

Lemma rep_class_zero (icase : bool) (p : ascii -> bool) (hi : option nat)
    (bol : bool) (s : string) (k : bool -> string -> bool) :
  k bol s = true -> rep_class icase p 0 hi bol s k = true.
Proof. intros H. destruct s; simpl; now rewrite H. Qed.

Lemma rep_class_all (icase : bool) (p : ascii -> bool)
    (k : bool -> string -> bool) (s : string) :
  (forall b, k b "" = true) ->
  forall lo h bol,
    all_chars p s = true -> lo <= String.length s -> String.length s <= h ->
    rep_class icase p lo (Some h) bol s k = true.
Proof.
  intros Hk. induction s as [|c s IH]; intros lo h bol Hall Hlo Hh.
  - simpl in *. assert (lo = 0) by lia. subst lo. simpl. now rewrite Hk.
  - simpl in Hall, Hlo, Hh. apply andb_true_iff in Hall as [Hc Hs].
    cbn [rep_class]. unfold in_class. rewrite Hc.
    destruct h as [|h]; [lia|]. cbn [more option_map pred orb andb].
    rewrite (IH (pred lo) h false Hs) by lia.
    apply orb_true_r.
Qed.

Lemma rep_class_split (icase : bool) (p : ascii -> bool)
    (k : bool -> string -> bool) (s : string) :
  forall lo hi bol,
    rep_class icase p lo hi bol s k = true ->
    exists a b bol', s = a ++ b /\ k bol' b = true.
Proof.
  induction s as [|c s IH]; intros lo hi bol H; cbn [rep_class] in H.
  - rewrite orb_false_r in H. apply andb_true_iff in H as [_ H].
    exists "", "", bol. split; [reflexivity | exact H].
  - apply orb_true_iff in H as [H|H].
    + apply andb_true_iff in H as [_ H].
      exists "", (String c s), bol. split; [reflexivity | exact H].
    + apply andb_true_iff in H as [_ H].
      destruct (IH _ _ _ H) as (a & b & bol' & -> & Hb).
      exists (String c a), b, bol'. split; [reflexivity | exact Hb].
Qed.

Lemma at_sign_only (c : ascii) :
  in_class true (Ascii.eqb "@") c = true -> c = "@"%char.
Proof.
  destruct c as [[] [] [] [] [] [] [] []]; vm_compute; intros H;
    first [reflexivity | discriminate H].
Qed.

Lemma email_needs_at_sign (s : string) :
  re_match true Constants.email_re s = true ->
  exists a t, s = a ++ String "@" t.
Proof.
  unfold re_match, Constants.email_re. cbn [seqs run andb].
  intros H. apply rep_class_split in H as (a & b & bol' & -> & H).
  destruct b as [|c t]; [discriminate H|].
  apply andb_true_iff in H as [H _]. apply at_sign_only in H. subst c.
  now exists a, t.
Qed.

Lemma phone_like_no_email (s : string) :
  all_chars phone_class s = true -> re_match true Constants.email_re s = false.
Proof.
  intros Hall. destruct (re_match true Constants.email_re s) eqn:E;
    [|reflexivity].
  destruct (email_needs_at_sign s E) as (a & t & ->).
  rewrite all_chars_app in Hall. apply andb_true_iff in Hall as [_ Hall].
  simpl in Hall. discriminate Hall.
Qed.

Lemma phone_like_matches (s : string) :
  phone_like s -> re_match true Constants.phone_re s = true.
Proof.
  intros [[Hlo Hhi] Hall].
  unfold re_match, Constants.phone_re. cbn [seqs run andb].
  apply rep_class_zero. cbn [run].
  apply rep_class_all; [reflexivity | exact Hall | exact Hlo | exact Hhi].
Qed.

Lemma count_all {A : Type} (p : A -> bool) (xs : list A) :
  (forall x, In x xs -> p x = true) -> count p xs = length xs.
Proof.
  unfold count. induction xs as [|x xs IH]; simpl; intros H; [reflexivity|].
  rewrite (H x (or_introl eq_refl)). simpl. rewrite IH; [reflexivity|].
  intros y Hy. apply H. now right.
Qed.

Lemma count_none {A : Type} (p : A -> bool) (xs : list A) :
  (forall x, In x xs -> p x = false) -> count p xs = 0.
Proof.
  unfold count. induction xs as [|x xs IH]; simpl; intros H; [reflexivity|].
  rewrite (H x (or_introl eq_refl)). apply IH.
  intros y Hy. apply H. now right.
Qed.

(** A column in which every value, once trimmed, has 7 to 20
    characters among digits, blanks and [-().] is classified as a
    phone column: identifiers of seven digits or more, ISO dates and
    amounts such as [50000.50] never reach the numeric or the date
    classification. *)
Theorem phone_like_column (series : list (option string)) :
  dropna series <> [] ->
  (forall v, In v (dropna series) -> phone_like (strip v)) ->
  _infer_types series = ("phone", "VARCHAR(25)").
Proof.
  intros Hne Hall. unfold _infer_types.
  destruct (dropna series) as [|x xs] eqn:E; [congruence|].
  change (length (x :: xs) =? 0) with false. cbv iota.
  set (vs := map strip (x :: xs)).
  assert (Hvs : forall t, In t vs -> phone_like t).
  { intros t Ht. apply in_map_iff in Ht as (v & <- & Hv). now apply Hall. }
  assert (Hlen : 0 < length vs) by (unfold vs; simpl; lia).
  unfold _detect_patterns, type_patterns, Constants.TYPE_PATTERNS.
  cbn [detect_in].
  rewrite (count_none (re_match true Constants.email_re) vs)
    by (intros t Ht; apply phone_like_no_email, (Hvs t Ht)).
  rewrite (count_all (re_match true Constants.phone_re) vs)
    by (intros t Ht; apply phone_like_matches, (Hvs t Ht)).
  unfold above_threshold.
  destruct (Nat.ltb_spec (4 * length vs) (5 * 0)); [lia|].
  destruct (Nat.ltb_spec (4 * length vs) (5 * length vs)); [reflexivity | lia].
Qed.


End WithLibrary.

Import DecimalLiterals.

Lemma integer_type_is_smallest_witness :
  (exists v, In v (observed_numbers small_and_large) /\ ~ in_range v 0 255) /\
  (exists v, In v (observed_numbers shuffled_a) /\ (v < 0)%Q).
Proof.
  split.
  - apply (proj1 (integer_type_is_smallest small_and_large) 0%Z 255%Z).
    reflexivity.
  - apply (proj2 (integer_type_is_smallest shuffled_a)).
    vm_compute. tauto.
Defined.

Lemma varchar_width_witness :
  String.length "Charlie" <= 7 /\
  _analyze_string_type ["John"; "Charlie"; "Bob"] = ("short_string", varchar 17).
Proof.
  destruct (varchar_width ["John"; "Charlie"; "Bob"] "Charlie")
    as (Hlen & Hshort & _).
  - right; left; reflexivity.
  - split; [exact Hlen | apply Hshort; vm_compute; lia].
Defined.

Lemma analyze_column_counts_witness :
  1 <= unique_count (analyze_column two_nulls_of_five).
Proof.
  apply (analyze_column_counts two_nulls_of_five). discriminate.
Defined.

Lemma null_percentage_range_witness :
  (null_percentage (analyze_column no_rows) == 0)%Q.
Proof. apply (null_percentage_range no_rows). reflexivity. Defined.


Lemma phone_like_column_witness :
  _infer_types iso_dates = ("phone", "VARCHAR(25)").
Proof.
  apply (phone_like_column iso_dates).
  - discriminate.
  - intros v Hv. simpl in Hv.
    destruct Hv as [<-|[<-|[<-|[]]]]; (split; [vm_compute; lia | reflexivity]).
Defined.


End EngineMore.

(** ** The rule-based descriptions *)

Module DescriptionMore.
Import PyStr PyStrFacts SchemaInferenceEngine DescriptionGenerator.
Import DescriptionNotions.

Lemma take_nonempty (n : nat) (s : string) :
  s <> "" -> take (S n) s <> "".
Proof. destruct s; [congruence | discriminate]. Qed.

Lemma app_nonempty (a b : string) : a <> "" -> a ++ b <> "".
Proof. destruct a; [congruence | discriminate]. Qed.

(** *** Humanized names *)

Lemma lstrip_all (p : ascii -> bool) (s : string) :
  all_chars p s = true -> all_chars p (lstrip s) = true.
Proof.
  induction s as [|c s IH]; simpl; [reflexivity|].
  intros H. destruct (isspace c); [|exact H].
  apply andb_true_iff in H as [_ H]. now apply IH.
Qed.

Lemma rstrip_all (p : ascii -> bool) (s : string) :
  all_chars p s = true -> all_chars p (rstrip s) = true.
Proof.
  induction s as [|c s IH]; simpl; [reflexivity|].
  intros H. apply andb_true_iff in H as [Hc Hs]. specialize (IH Hs).
  destruct (rstrip s) as [|d r].
  - destruct (isspace c); simpl; [reflexivity | now rewrite Hc].
  - simpl in *. now rewrite Hc, IH.
Qed.

Lemma strip_all (p : ascii -> bool) (s : string) :
  all_chars p s = true -> all_chars p (strip s) = true.
Proof. intros H. unfold strip. now apply rstrip_all, lstrip_all. Qed.

Lemma lstrip_left_trimmed (s : string) : left_trimmed (lstrip s).
Proof.
  induction s as [|c s IH]; simpl; [exact I|].
  destruct (isspace c) eqn:E; [exact IH | exact E].
Qed.

Lemma lstrip_fix (s : string) : left_trimmed s -> lstrip s = s.
Proof. destruct s as [|c s]; simpl; [reflexivity|]. now intros ->. Qed.

Lemma rstrip_left_trimmed (s : string) :
  left_trimmed s -> left_trimmed (rstrip s).
Proof.
  destruct s as [|c s]; simpl; [exact id|]. intros Hc.
  destruct (rstrip s); [rewrite Hc|]; exact Hc.
Qed.

Lemma rstrip_idempotent (s : string) : rstrip (rstrip s) = rstrip s.
Proof.
  induction s as [|c s IH]; simpl; [reflexivity|].
  destruct (rstrip s) as [|d r] eqn:E.
  - destruct (isspace c) eqn:Ec; simpl; [reflexivity | now rewrite Ec].
  - cbn [rstrip]. cbn [rstrip] in IH. rewrite IH. reflexivity.
Qed.

Lemma strip_idempotent (s : string) : strip (strip s) = strip s.
Proof.
  unfold strip.
  rewrite (lstrip_fix (rstrip (lstrip s)))
    by apply rstrip_left_trimmed, lstrip_left_trimmed.
  apply rstrip_idempotent.
Qed.

Lemma split_camel_cons (c1 : ascii) (t : string) :
  split_camel (String c1 t)
  = match t with
    | String c2 r =>
        if is_lower c1 && is_upper c2
        then String c1 (String " " (String c2 (split_camel r)))
        else String c1 (split_camel t)
    | EmptyString => String c1 EmptyString
    end.
Proof. destruct t; reflexivity. Qed.

Lemma split_camel_all (p : ascii -> bool) :
  p " "%char = true ->
  forall n s, String.length s <= n ->
    all_chars p s = true -> all_chars p (split_camel s) = true.
Proof.
  intros Hsp. induction n as [|n IH]; intros [|c1 t] Hlen Hall;
    try reflexivity; [simpl in Hlen; lia|].
  rewrite split_camel_cons. simpl in Hlen.
  cbn [all_chars] in Hall. apply andb_true_iff in Hall as [H1 Ht].
  destruct t as [|c2 r]; [simpl; now rewrite H1|].
  destruct (is_lower c1 && is_upper c2).
  - cbn [all_chars] in Ht |- *. apply andb_true_iff in Ht as [H2 Hr].
    rewrite H1, Hsp, H2. simpl in Hlen. apply IH; [lia | exact Hr].
  - cbn [all_chars]. rewrite H1. apply IH; [lia | exact Ht].
Qed.

Lemma split_camel_fix :
  forall n s, String.length s <= n ->
    all_chars (fun c => negb (is_upper c)) s = true -> split_camel s = s.
Proof.
  induction n as [|n IH]; intros [|c1 t] Hlen Hall;
    try reflexivity; [simpl in Hlen; lia|].
  rewrite split_camel_cons. simpl in Hlen.
  cbn [all_chars] in Hall. apply andb_true_iff in Hall as [H1 Ht].
  destruct t as [|c2 r]; [reflexivity|].
  assert (H2 : is_upper c2 = false).
  { cbn [all_chars] in Ht. apply andb_true_iff in Ht as [H2 _].
    now apply negb_true_iff in H2. }
  rewrite H2, andb_false_r. rewrite IH; [reflexivity | lia | exact Ht].
Qed.

Lemma replace_underscore_all (s : string) :
  all_chars no_underscore (replace_char "_" " " s) = true.
Proof.
  induction s as [|c s IH]; simpl; [reflexivity|].
  destruct (Ascii.eqb c "_") eqn:E; simpl; [exact IH|].
  unfold no_underscore at 1. now rewrite E, IH.
Qed.

Lemma replace_underscore_fix (s : string) :
  all_chars no_underscore s = true -> replace_char "_" " " s = s.
Proof.
  induction s as [|c s IH]; simpl; [reflexivity|].
  intros H. apply andb_true_iff in H as [Hc Hs].
  apply negb_true_iff in Hc. now rewrite Hc, IH.
Qed.

Lemma lower_char_settled (c : ascii) :
  no_underscore c = true -> settled (lower_char c) = true.
Proof.
  destruct c as [[] [] [] [] [] [] [] []]; vm_compute; intros H;
    first [reflexivity | discriminate H].
Qed.

Lemma lower_settled (s : string) :
  all_chars no_underscore s = true -> all_chars settled (lower s) = true.
Proof.
  unfold lower. induction s as [|c s IH]; simpl; [reflexivity|].
  intros H. apply andb_true_iff in H as [Hc Hs].
  now rewrite (lower_char_settled c Hc), IH.
Qed.

Lemma lower_fix (s : string) :
  all_chars settled s = true -> lower s = s.
Proof.
  unfold lower. induction s as [|c s IH]; simpl; [reflexivity|].
  intros H. apply andb_true_iff in H as [Hc Hs].
  unfold settled in Hc. apply andb_true_iff in Hc as [_ Hc].
  apply Ascii.eqb_eq in Hc. now rewrite Hc, IH.
Qed.

Lemma all_chars_weaken (p q : ascii -> bool) (s : string) :
  (forall c, p c = true -> q c = true) ->
  all_chars p s = true -> all_chars q s = true.
Proof.
  intros Hpq. induction s as [|c s IH]; simpl; [reflexivity|].
  intros H. apply andb_true_iff in H as [Hc Hs].
  now rewrite (Hpq c Hc), IH.
Qed.

Lemma humanize_settled (name : string) :
  all_chars settled (_humanize_name name) = true.
Proof.
  unfold _humanize_name. apply strip_all, lower_settled.
  apply (split_camel_all no_underscore eq_refl _ _ (Nat.le_refl _)).
  apply replace_underscore_all.
Qed.

(** A humanized name holds neither an underscore nor an ASCII
    capital, has no blank at either end left to strip, and humanizing
    it again changes nothing. *)
Theorem humanize_name_normal (name : string) :
  all_chars plain (_humanize_name name) = true /\
  strip (_humanize_name name) = _humanize_name name /\
  _humanize_name (_humanize_name name) = _humanize_name name.
Proof.
  pose proof (humanize_settled name) as Hs.
  assert (Hstrip : strip (_humanize_name name) = _humanize_name name)
    by (unfold _humanize_name; apply strip_idempotent).
  split; [|split; [exact Hstrip|]].
  - revert Hs. apply all_chars_weaken. intros c H.
    unfold settled in H. now apply andb_true_iff in H as [H _].
  - set (h := _humanize_name name) in *.
    unfold _humanize_name at 1.
    rewrite replace_underscore_fix.
    + rewrite (split_camel_fix _ h (Nat.le_refl _)).
      * now rewrite (lower_fix h Hs).
      * revert Hs. apply all_chars_weaken. intros c H.
        unfold settled, plain in H.
        apply andb_true_iff in H as [H _].
        now apply andb_true_iff in H as [_ H].
    + revert Hs. apply all_chars_weaken. intros c H.
      unfold settled, plain in H.
      apply andb_true_iff in H as [H _].
      now apply andb_true_iff in H as [H _].
Qed.


Section WithText.
Context {text : FloatText}.

Lemma fallback_description_nonempty (col : ColumnAnalysis) :
  _generate_fallback_description col <> "".
Proof.
  unfold _generate_fallback_description, max_description_length.
  apply take_nonempty.
  repeat match goal with
    | |- context [if ?b then _ else _] => destruct b
    end;
    repeat apply app_nonempty; discriminate.
Qed.

(** Every rule-based description is non-empty and has at most 200
    characters, and attaching the descriptions changes no other field
    of a column. *)
Theorem fallback_descriptions_bounded (columns : list ColumnAnalysis) :
  length (_generate_fallback_descriptions columns) = length columns /\
  (forall c, In c (_generate_fallback_descriptions columns) ->
             description c <> "" /\ String.length (description c) <= 200) /\
  (forall i c, nth_error (_generate_fallback_descriptions columns) i = Some c ->
     exists col, nth_error columns i = Some col /\
       c = set_description col (description c)).
Proof.
  unfold _generate_fallback_descriptions. split; [apply length_map|]. split.
  - intros c Hc. apply in_map_iff in Hc as (col & <- & _).
    cbn [description set_description]. split.
    + apply fallback_description_nonempty.
    + unfold _generate_fallback_description, max_description_length.
      rewrite length_take. apply Nat.le_min_l.
  - intros i c Hi. rewrite nth_error_map in Hi.
    destruct (nth_error columns i) as [col|]; [|discriminate].
    simpl in Hi. inversion Hi; subst c. exists col. split; reflexivity.
Qed.

(** After the rule-based descriptions, every column definition of the
    DDL ends in a COMMENT clause that holds the escaped description. *)
Theorem fallback_columns_commented (columns : list ColumnAnalysis)
    (c : ColumnAnalysis) :
  In c (_generate_fallback_descriptions columns) ->
  exists head,
    DDLGenerator._generate_column_definition c
    = head ++ " COMMENT '" ++ DDLSpec.comment_text (description c) ++ "'".
Proof.
  intros Hc. apply DDLFacts.column_definition_comment.
  unfold _generate_fallback_descriptions in Hc.
  apply in_map_iff in Hc as (col & <- & _).
  apply fallback_description_nonempty.
Qed.

End WithText.

Lemma fallback_descriptions_bounded_witness :
  description (set_description sparse_notes
                 (_generate_fallback_description sparse_notes)) <> "".
Proof.
  apply (fallback_descriptions_bounded [sparse_notes]). now left.
Defined.

Lemma fallback_columns_commented_witness :
  exists head,
    DDLGenerator._generate_column_definition
      (set_description sparse_notes (_generate_fallback_description sparse_notes))
    = head ++ " COMMENT '"
        ++ "Descriptive text field containing customer notes raw details (High null rate: 75.0%)"
        ++ "'".
Proof.
  apply (fallback_columns_commented [sparse_notes]). now left.
Defined.

End DescriptionMore.

(** ** The parsed table *)

Module CSVMore.
Import PyStr PyStrFacts Pandas CSVParser CSVNotions.

Lemma handle_from_length (columns : list string) :
  forall seen, length (handle_from seen columns) = length columns.
Proof.
  induction columns as [|col rest IH]; intros seen; simpl; [reflexivity|].
  destruct (dict_lookup seen col); simpl; now rewrite IH.
Qed.

Lemma seen_counts_step (seen : list (string * nat)) (before : list string)
    (col : string) :
  seen_counts seen before ->
  seen_counts
    (dict_set seen col
       (match dict_lookup seen col with Some n => n + 1 | None => 0 end))
    (before ++ [col]).
Proof.
  intros H c. unfold dict_set. cbn [dict_lookup].
  rewrite count_occ_app. cbn [count_occ].
  destruct (String.eqb_spec col c) as [->|Hne].
  - destruct (string_dec c c) as [_|N]; [|congruence].
    rewrite (H c).
    destruct (Nat.eqb_spec (count_occ string_dec before c) 0) as [E|E].
    + rewrite E. reflexivity.
    + destruct (Nat.eqb_spec (count_occ string_dec before c + 1) 0); [lia|].
      f_equal. lia.
  - destruct (string_dec col c) as [E|_]; [congruence|].
    rewrite Nat.add_0_r. apply H.
Qed.

Lemma handle_from_nth (columns : list string) :
  forall seen before i c,
    seen_counts seen before ->
    nth_error columns i = Some c ->
    nth_error (handle_from seen columns) i
    = Some (label_for (count_occ string_dec (before ++ firstn i columns) c) c).
Proof.
  induction columns as [|col rest IH]; intros seen before i c Hs Hi.
  - now destruct i.
  - pose proof (seen_counts_step seen before col Hs) as Hstep.
    destruct i as [|i].
    + simpl in Hi. inversion Hi; subst c. cbn [firstn].
      rewrite app_nil_r. cbn [handle_from]. rewrite (Hs col).
      unfold label_for.
      destruct (Nat.eqb_spec (count_occ string_dec before col) 0) as [E|E].
      * reflexivity.
      * cbn [nth_error].
        replace (count_occ string_dec before col - 1 + 1)
          with (count_occ string_dec before col) by lia.
        reflexivity.
    + simpl in Hi. cbn [firstn handle_from].
      replace (before ++ col :: firstn i rest)%list
        with ((before ++ [col]) ++ firstn i rest)%list
        by (rewrite <- app_assoc; reflexivity).
      destruct (dict_lookup seen col) as [n|]; cbn [nth_error];
        now apply IH.
Qed.

(** Renaming keeps the number and the order of the columns: the
    column at position [i] keeps its name when that name does not
    occur before it, and gets the suffix [_k] when it occurs [k]
    times before it. *)
Theorem handle_duplicate_columns_labels (columns : list string) :
  length (_handle_duplicate_columns columns) = length columns /\
  forall i c,
    nth_error columns i = Some c ->
    nth_error (_handle_duplicate_columns columns) i
    = Some (label_for (count_occ string_dec (firstn i columns) c) c).
Proof.
  split; [apply handle_from_length|].
  intros i c Hi.
  apply (handle_from_nth columns [] [] i c); [|exact Hi].
  intros x. reflexivity.
Qed.

Lemma handle_duplicate_columns_labels_witness :
  nth_error (_handle_duplicate_columns ["id"; "x"; "id"; "id"]) 3
  = Some "id_2".
Proof.
  apply (proj2 (handle_duplicate_columns_labels ["id"; "x"; "id"; "id"]) 3 "id").
  reflexivity.
Defined.

Lemma handle_from_fresh (columns : list string) :
  forall seen,
    NoDup columns ->
    (forall c, In c columns -> dict_lookup seen c = None) ->
    handle_from seen columns = columns.
Proof.
  induction columns as [|col rest IH]; intros seen Hnd Hfresh;
    [reflexivity|].
  cbn [handle_from]. rewrite (Hfresh col (or_introl eq_refl)).
  inversion Hnd as [|? ? Hnot Hrest]; subst.
  rewrite IH; [reflexivity | exact Hrest |].
  intros c Hc. unfold dict_set. cbn [dict_lookup].
  destruct (String.eqb_spec col c) as [->|_]; [contradiction|].
  apply Hfresh. now right.
Qed.

Lemma eqb_suffixed (c suffix : string) :
  suffix <> "" -> String.eqb c (c ++ suffix) = false.
Proof.
  intros Hs. apply String.eqb_neq. intros E.
  apply (f_equal String.length) in E. rewrite length_app in E.
  destruct suffix; [congruence | simpl in E; lia].
Qed.

(** Column names that are all different are left as they are; but the
    names returned are not always different: a name that already ends
    in the suffix given to a repeat is not renamed. *)
Theorem handle_duplicate_columns_distinct :
  (forall columns, NoDup columns ->
                   _handle_duplicate_columns columns = columns) /\
  (forall c, _handle_duplicate_columns [c; c; c ++ "_1"]
             = [c; c ++ "_1"; c ++ "_1"]).
Proof.
  split.
  - intros columns Hnd. apply handle_from_fresh; [exact Hnd | reflexivity].
  - intros c. unfold _handle_duplicate_columns. cbn [handle_from dict_lookup].
    unfold dict_set. cbn [dict_lookup]. rewrite String.eqb_refl.
    cbn [dict_lookup]. rewrite (eqb_suffixed c "_1") by discriminate.
    reflexivity.
Qed.

Lemma handle_duplicate_columns_distinct_witness :
  _handle_duplicate_columns ["id"; "name"; "email"] = ["id"; "name"; "email"].
Proof.
  apply (proj1 handle_duplicate_columns_distinct).
  repeat constructor; simpl; intuition discriminate.
Defined.



End CSVMore.

(** ** The parser entry point and the request handler *)

Module RoutesMore.
Import PyStr PyStrFacts Pandas SchemaInferenceEngine DDLGenerator.
Import CSVParser ErrorHandler Routes CSVNotions RouteNotions.

Lemma sum_nat_from (xs : list nat) (a : nat) :
  fold_left Nat.add xs a = a + fold_left Nat.add xs 0.
Proof.
  revert a. induction xs as [|x xs IH]; intros a; simpl; [lia|].
  rewrite (IH (a + x)), (IH x). lia.
Qed.

Lemma sum_ones {A : Type} (xs : list A) :
  sum_nat (map (fun _ => 1) xs) = length xs.
Proof.
  unfold sum_nat. induction xs as [|x xs IH]; simpl; [reflexivity|].
  rewrite sum_nat_from, IH. reflexivity.
Qed.

Lemma dropna_all_null (rows : list (list (option string))) :
  (forall row, In row rows -> all_null row) -> dropna_all rows = [].
Proof.
  unfold dropna_all. induction rows as [|row rs IH]; intros H;
    [reflexivity|].
  simpl. rewrite (H row (or_introl eq_refl)).
  apply IH. intros r Hr. apply H. now right.
Qed.

Section Handler.
Context {lib : Numeric}.
Variable max_file_size : Z.
Variable unparsable : string.
Variable detect_encoding : string -> string.
Variable _decode_content : string -> string -> exception + string.
Variable detect_separator : string -> string.
Variable _parse_with_fallbacks :
  string -> string -> string -> option (DataFrame * string).
Variable generate_descriptions : list ColumnAnalysis -> list ColumnAnalysis.

Let parse : string -> exception + (DataFrame * ParsingInfo) :=
  parse_csv max_file_size unparsable detect_encoding _decode_content
            detect_separator _parse_with_fallbacks.

Let handler : option string -> string -> string
              -> exception + AnalysisResponse :=
  analyze_csv max_file_size unparsable detect_encoding _decode_content
              detect_separator _parse_with_fallbacks generate_descriptions.

Lemma analyze_column_name (series : Series) :
  name (analyze_column series) = series_name series.
Proof.
  unfold analyze_column. now destruct (_infer_types (cells series)).
Qed.

Lemma parse_csv_columns (content : string) (df : DataFrame)
    (info : ParsingInfo) :
  parse content = inr (df, info) ->
  2 <= length (df_columns df) /\
  info_columns info = length (df_columns df).
Proof.
  unfold parse, parse_csv.
  destruct (String.length content =? 0); [discriminate|].
  destruct (max_file_size <? _)%Z; [discriminate|].
  destruct (_decode_content _ _) as [e|text]; [discriminate|].
  destruct (_parse_with_fallbacks _ _ _) as [[df0 sep]|]; [|discriminate].
  destruct (Nat.leb_spec (length (df_columns df0)) 1) as [H1|H1];
    [discriminate|].
  destruct (length (df_rows df0) =? 0); [discriminate|].
  cbn [orb]. intros [= <- <-]. cbn [info_columns].
  unfold _clean_dataframe, _handle_duplicate_columns. cbn [df_columns].
  rewrite CSVMore.handle_from_length, length_map. split; [lia | reflexivity].
Qed.

(** What [parse_csv] returns is a frame of at least two columns
    without a row that is entirely null, described by the counts of
    its rows and columns, for an upload that is neither empty nor
    above the size limit. *)
Theorem parse_csv_frame (content : string) (df : DataFrame)
    (info : ParsingInfo) :
  parse content = inr (df, info) ->
  content <> "" /\
  (Z.of_nat (String.length content) <= max_file_size)%Z /\
  2 <= length (df_columns df) /\
  info_columns info = length (df_columns df) /\
  info_rows info = length (df_rows df) /\
  (forall row, In row (df_rows df) -> ~ all_null row).
Proof.
  unfold parse, parse_csv.
  destruct (Nat.eqb_spec (String.length content) 0) as [E0|E0]; [discriminate|].
  destruct (Z.ltb_spec max_file_size (Z.of_nat (String.length content)))
    as [Hbig|Hfit]; [discriminate|].
  destruct (_decode_content _ _) as [e|text]; [discriminate|].
  destruct (_parse_with_fallbacks _ _ _) as [[df0 sep]|]; [|discriminate].
  destruct (Nat.leb_spec (length (df_columns df0)) 1) as [H1|H1];
    [discriminate|].
  destruct (Nat.eqb_spec (length (df_rows df0)) 0) as [H2|H2];
    [discriminate|].
  cbn [orb]. intros [= <- <-]. cbn [info_columns info_rows].
  repeat split; try exact Hfit.
  - intros ->. apply E0. reflexivity.
  - unfold _clean_dataframe, _handle_duplicate_columns. cbn [df_columns].
    rewrite CSVMore.handle_from_length, length_map. lia.
  - intros row Hrow. unfold _clean_dataframe, dropna_all in Hrow.
    cbn [df_rows] in Hrow. apply filter_In in Hrow as [_ Hrow].
    unfold all_null. congruence.
Qed.

(** The frame is tested for rows before it is cleaned: when the text
    read has at least two columns and only rows that are entirely
    null, [parse_csv] succeeds with a frame of no row at all. *)
Theorem parse_csv_blank_rows (content text : string) (df : DataFrame)
    (sep : string) :
  content <> "" ->
  (Z.of_nat (String.length content) <= max_file_size)%Z ->
  _decode_content content (detect_encoding content) = inr text ->
  _parse_with_fallbacks text (detect_separator text)
                        (detect_encoding content) = Some (df, sep) ->
  2 <= length (df_columns df) ->
  df_rows df <> [] ->
  (forall row, In row (df_rows df) -> all_null row) ->
  exists df' info,
    parse content = inr (df', info) /\
    df_rows df' = [] /\ info_rows info = 0 /\
    info_columns info = length (df_columns df).
Proof.
  intros Hne Hfit Hdec Hread Hcols Hrows Hnull.
  unfold parse, parse_csv.
  destruct (Nat.eqb_spec (String.length content) 0) as [E0|_].
  { destruct content; [congruence | discriminate E0]. }
  destruct (Z.ltb_spec max_file_size (Z.of_nat (String.length content)))
    as [Hbig|_]; [lia|].
  rewrite Hdec, Hread.
  destruct (Nat.leb_spec (length (df_columns df)) 1) as [H1|_]; [lia|].
  destruct (Nat.eqb_spec (length (df_rows df)) 0) as [H2|_].
  { destruct (df_rows df); [congruence | discriminate H2]. }
  cbn [orb].
  pose proof (dropna_all_null _ Hnull) as Hempty.
  eexists _, _. split; [reflexivity|].
  unfold _clean_dataframe. cbn [df_rows df_columns info_rows info_columns].
  rewrite Hempty. repeat split.
  unfold _handle_duplicate_columns.
  now rewrite CSVMore.handle_from_length, length_map.
Qed.

Lemma bad_name_rejected (filename : option string) (content table : string) :
  csv_name filename = false ->
  handler filename content table = inl (HTTPException 400 unsupported_format).
Proof.
  intros H. unfold handler, analyze_csv, analyze_csv_body.
  destruct filename as [f|]; [|reflexivity].
  unfold csv_name in H. rewrite <- negb_andb, H. reflexivity.
Qed.

Lemma good_name (filename : option string) :
  csv_name filename = true ->
  match filename with
  | None => true
  | Some f => negb (nonempty f) || negb (endswith (lower f) ".csv")
  end = false.
Proof.
  destruct filename as [f|]; [|discriminate].
  unfold csv_name. intros H. now rewrite <- negb_andb, H.
Qed.

Lemma parser_error_is_500 (filename : option string) (content table : string)
    (e : exception) :
  csv_name filename = true -> content <> "" ->
  parse content = inl e -> parser_side e ->
  handler filename content table = inl (HTTPException 500 analysis_failed).
Proof.
  intros Hname Hne Hparse Hside.
  unfold handler, analyze_csv, analyze_csv_body.
  rewrite (good_name _ Hname).
  destruct (Nat.eqb_spec (String.length content) 0) as [E0|_].
  { destruct content; [congruence | discriminate E0]. }
  fold parse. rewrite Hparse.
  destruct Hside as [[m ->]|[t [m ->]]]; reflexivity.
Qed.

(** The handler answers 400 only for an upload whose name does not
    end in [.csv] or whose content is empty, each with its fixed
    message; every other failure, the parser's included, is answered
    500 with the one generic message, so the explanation the parser
    raises never reaches the client. *)
Theorem analyze_csv_errors (filename : option string)
    (content table : string) :
  (forall c enc e, _decode_content c enc = inl e -> parser_side e) ->
  (csv_name filename = false ->
   handler filename content table
   = inl (HTTPException 400 unsupported_format)) /\
  (csv_name filename = true -> content = "" ->
   handler filename content table = inl (HTTPException 400 empty_file)) /\
  (csv_name filename = true -> content <> "" ->
   forall e, handler filename content table = inl e ->
             e = HTTPException 500 analysis_failed).
Proof.
  intros Hdec. split; [apply bad_name_rejected|]. split.
  - intros Hname ->. unfold handler, analyze_csv, analyze_csv_body.
    now rewrite (good_name _ Hname).
  - intros Hname Hne e.
    destruct (parse content) as [pe|[df info]] eqn:Hparse.
    + assert (Hside : parser_side pe).
      { revert Hparse. unfold parse, parse_csv.
        destruct (String.length content =? 0);
          [intros [= <-]; left; eauto|].
        destruct (max_file_size <? _)%Z; [intros [= <-]; left; eauto|].
        destruct (_decode_content _ _) as [de|text] eqn:Hd.
        - intros [= <-]. exact (Hdec _ _ _ Hd).
        - destruct (_parse_with_fallbacks _ _ _) as [[df0 sep]|];
            [|intros [= <-]; left; eauto].
          destruct (_ || _); [intros [= <-]; left; eauto | discriminate]. }
      rewrite (parser_error_is_500 _ _ table pe Hname Hne Hparse Hside).
      now intros [= <-].
    + unfold handler, analyze_csv, analyze_csv_body.
      rewrite (good_name _ Hname).
      destruct (Nat.eqb_spec (String.length content) 0) as [E0|_].
      { destruct content; [congruence | discriminate E0]. }
      fold parse. rewrite Hparse.
      assert (Hall : forall labels ae,
                 analyze_all df labels = inl ae -> ae = OtherException "" "").
      { induction labels as [|l ls IH]; intros ae; simpl; [discriminate|].
        unfold getitem. destruct (_ =? 1).
        - destruct (analyze_all df ls) as [x|cols]; [|discriminate].
          intros [= <-]. now apply IH.
        - now intros [= <-]. }
      destruct (analyze_all df (df_columns df)) as [ae|cols] eqn:Ha.
      * rewrite (Hall _ _ Ha). now intros [= <-].
      * discriminate.
Qed.

(** An upload above the size limit is answered 500 with the generic
    message, not with the "File too large" text that [parse_csv]
    raises for it. *)
Theorem oversized_upload_is_500 (filename : option string)
    (content table : string) :
  csv_name filename = true -> content <> "" ->
  (max_file_size < Z.of_nat (String.length content))%Z ->
  parse content
  = inl (ParserCSVParsingError
           ("File too large (max "
              ++ str_of_Z (max_file_size / (1024 * 1024)) ++ "MB)")) /\
  handler filename content table = inl (HTTPException 500 analysis_failed).
Proof.
  intros Hname Hne Hbig.
  assert (Hparse : parse content
                   = inl (ParserCSVParsingError
                            ("File too large (max "
                               ++ str_of_Z (max_file_size / (1024 * 1024))
                               ++ "MB)"))).
  { unfold parse, parse_csv.
    destruct (Nat.eqb_spec (String.length content) 0) as [E0|_].
    { destruct content; [congruence | discriminate E0]. }
    destruct (Z.ltb_spec max_file_size (Z.of_nat (String.length content)));
      [reflexivity | lia]. }
  split; [exact Hparse|].
  apply (parser_error_is_500 _ _ _ _ Hname Hne Hparse). left. eauto.
Qed.

Lemma analyze_all_names (df : DataFrame) (labels : list string)
    (cols : list ColumnAnalysis) :
  analyze_all df labels = inr cols ->
  map name cols = labels /\
  Forall (fun l => count_occ string_dec (df_columns df) l = 1) labels.
Proof.
  revert cols. induction labels as [|l ls IH]; intros cols; simpl.
  - intros [= <-]. split; [reflexivity | constructor].
  - unfold getitem.
    destruct (Nat.eqb_spec (count_occ string_dec (df_columns df) l) 1)
      as [E|E]; [|discriminate].
    destruct (analyze_all df ls) as [x|cs]; [discriminate|].
    intros [= <-]. destruct (IH cs eq_refl) as [Hn Hf]. split.
    + simpl. now rewrite analyze_column_name, Hn.
    + now constructor.
Qed.

(** A successful answer echoes the table name as given, carries the
    DDL generated from the very columns it lists, and lists one
    column per label of the parsed table, under that label: at least
    two columns, no two of the same name, counted alike by the file
    information and by the summary, at most that many with nulls. *)
Theorem analyze_csv_response (filename : option string)
    (content table : string) (r : AnalysisResponse) :
  (forall cols, map name (generate_descriptions cols) = map name cols) ->
  handler filename content table = inr r ->
  success r = true /\
  table_name r = table /\
  ddl r = generate_ddl table (response_columns r) /\
  fi_columns (file_info r) = length (response_columns r) /\
  total_columns (summary r) = length (response_columns r) /\
  2 <= length (response_columns r) /\
  columns_with_nulls (summary r) <= total_columns (summary r) /\
  NoDup (map name (response_columns r)).
Proof.
  intros Hgd. unfold handler, analyze_csv, analyze_csv_body.
  destruct (match filename with None => true | Some f => _ end);
    [discriminate|].
  destruct (String.length content =? 0); [discriminate|].
  fold parse.
  destruct (parse content) as [pe|[df info]] eqn:Hparse.
  { destruct pe as [s d|[] m c|m|t m]; discriminate. }
  destruct (analyze_all df (df_columns df)) as [ae|cols] eqn:Ha.
  { destruct ae; discriminate. }
  intros [= <-].
  cbn [success table_name ddl file_info fi_columns response_columns summary].
  destruct (parse_csv_columns _ _ _ Hparse) as [Hcols Hic].
  destruct (analyze_all_names _ _ _ Ha) as [Hnames Hocc].
  assert (Hlen : length (generate_descriptions cols) = length (df_columns df)).
  { rewrite <- (length_map name), Hgd, Hnames. reflexivity. }
  repeat split.
  - now rewrite Hic, Hlen.
  - now rewrite Hlen.
  - unfold make_summary. cbn [columns_with_nulls total_columns].
    rewrite sum_ones. apply filter_length_le.
  - rewrite Hgd, Hnames. apply (NoDup_count_occ string_dec).
    intros l. destruct (in_dec string_dec l (df_columns df)) as [Hin|Hout].
    + rewrite Forall_forall in Hocc. rewrite (Hocc l Hin). lia.
    + apply (count_occ_not_In string_dec) in Hout. lia.
Qed.

End Handler.

Import DescriptionGenerator DecimalLiterals.

Lemma parse_csv_frame_witness :
  2 <= length (df_columns (_clean_dataframe people_frame)).
Proof.
  apply (parse_csv_frame mebibytes_100 "Could not parse CSV file."
           (fun _ => "utf-8") decode_as_is (fun _ => ",") read_people
           "name ,age,name" (_clean_dataframe people_frame)
           (mkParsingInfo "," "utf-8" 2 3)).
  reflexivity.
Defined.

Lemma parse_csv_blank_rows_witness :
  exists df' info,
    parse_csv mebibytes_100 "Could not parse CSV file."
      (fun _ => "utf-8") decode_as_is (fun _ => ",") read_blank "a, b"
    = inr (df', info) /\
    df_rows df' = [] /\ info_rows info = 0 /\ info_columns info = 2.
Proof.
  apply (parse_csv_blank_rows mebibytes_100 "Could not parse CSV file."
           (fun _ => "utf-8") decode_as_is (fun _ => ",") read_blank
           "a, b" "a, b" blank_frame ",").
  - discriminate.
  - vm_compute. discriminate.
  - reflexivity.
  - reflexivity.
  - simpl. lia.
  - discriminate.
  - intros row Hrow. simpl in Hrow.
    destruct Hrow as [<-|[<-|[]]]; reflexivity.
Defined.

Lemma decode_as_is_side (c enc : string) (e : exception) :
  decode_as_is c enc = inl e -> parser_side e.
Proof. discriminate. Qed.

Lemma analyze_csv_errors_witness :
  example_handler read_nothing (Some "notes.txt") "a,b" "t"
  = inl (HTTPException 400 unsupported_format) /\
  example_handler read_nothing (Some "notes.csv") "" "t"
  = inl (HTTPException 400 empty_file) /\
  example_handler read_nothing (Some "notes.csv") "a,b" "t"
  = inl (HTTPException 500 analysis_failed).
Proof.
  unfold example_handler. split; [|split].
  - apply (analyze_csv_errors mebibytes_100 _ _ decode_as_is _ read_nothing
             _ _ "a,b" "t" decode_as_is_side). reflexivity.
  - apply (analyze_csv_errors mebibytes_100 _ _ decode_as_is _ read_nothing
             _ _ "" "t" decode_as_is_side); reflexivity.
  - destruct (analyze_csv mebibytes_100 "Could not parse CSV file."
                (fun _ => "utf-8") decode_as_is (fun _ => ",") read_nothing
                _generate_fallback_descriptions (Some "notes.csv") "a,b" "t")
      as [e|r] eqn:E; [|vm_compute in E; discriminate E].
    f_equal.
    apply (proj2 (proj2 (analyze_csv_errors mebibytes_100
                           "Could not parse CSV file." (fun _ => "utf-8")
                           decode_as_is (fun _ => ",") read_nothing
                           _generate_fallback_descriptions
                           (Some "notes.csv") "a,b" "t"
                           decode_as_is_side)) eq_refl);
      [discriminate | exact E].
Defined.

Lemma oversized_upload_is_500_witness :
  analyze_csv 3 "Could not parse CSV file." (fun _ => "utf-8") decode_as_is
    (fun _ => ",") read_people _generate_fallback_descriptions
    (Some "big.csv") "a,b,c" "t"
  = inl (HTTPException 500 analysis_failed).
Proof.
  apply (oversized_upload_is_500 3 "Could not parse CSV file."
           (fun _ => "utf-8") decode_as_is (fun _ => ",") read_people
           _generate_fallback_descriptions (Some "big.csv") "a,b,c" "t").
  - reflexivity.
  - discriminate.
  - vm_compute. reflexivity.
Defined.

Lemma fallback_keeps_names (cols : list ColumnAnalysis) :
  map name (_generate_fallback_descriptions cols) = map name cols.
Proof.
  unfold _generate_fallback_descriptions. rewrite map_map. reflexivity.
Qed.

Lemma analyze_csv_response_witness :
  exists r, people_response = inr r /\
            map name (response_columns r) = ["name"; "age"; "name_1"] /\
            NoDup (map name (response_columns r)).
Proof.
  destruct people_response as [e|r] eqn:E; [vm_compute in E; discriminate|].
  exists r. split; [reflexivity|]. split.
  - vm_compute in E. inversion E. reflexivity.
  - unfold people_response, example_handler in E.
    apply (analyze_csv_response _ _ _ _ _ _ _ _ _ _ r fallback_keeps_names E).
Defined.

End RoutesMore.

(** ** More on the quality analysis *)

Module QualityMore.
Import PyStr PyStrFacts Regex Pandas PandasFacts.
Import SchemaInferenceEngine EngineSpec EngineFacts EngineNotions EngineMore.

(** *** Integral and fractional columns *)

Section WithLibrary.
Context {lib : Numeric}.

(** A column gets an integer type only when every number observed in
    it is integral, and a decimal or float type only when some
    observed number is not. *)
Theorem integer_types_hold_integers (series : list (option string)) :
  (In (fst (_infer_types series)) integer_types ->
   forall v, In v (observed_numbers series) -> is_integral v = true) /\
  (In (fst (_infer_types series)) ["decimal"; "float"] ->
   exists v, In v (observed_numbers series) /\ is_integral v = false).
Proof.
  destruct (infer_types_phase series) as [H|p H|H Hi|Hi|H].
  - split; simpl; intuition discriminate.
  - simpl in H. cbn [fst].
    repeat (destruct H as [<-|H]; [split; simpl; intuition discriminate|]).
    contradiction.
  - split.
    + intros _. now apply forallb_forall.
    + intros Hin. exfalso. revert Hin. unfold _classify_integer_type.
      repeat match goal with
        | |- context [if ?b then _ else _] => destruct b
        end; simpl; intuition discriminate.
  - split.
    + intros Hin. exfalso. revert Hin. unfold _classify_decimal_type.
      destruct (max_nat _) as [m|];
        [destruct (m <=? 4); [|destruct (m <=? 6)]|];
        simpl; intuition discriminate.
    + intros _. now apply forallb_false_exists.
  - split; intros Hin; exfalso; revert Hin; unfold _analyze_string_type;
      (destruct (max_nat _) as [m|];
       [destruct (m <=? 10); [|destruct (m <=? 100);
          [|destruct (m <=? 255); [|destruct (m <=? 1000)]]]|]);
      simpl; intuition discriminate.
Qed.

End WithLibrary.

(** *** Findings on strings *)

Lemma series_equals_map (f : string -> string) (xs : list string) :
  series_equals xs (map f xs) = true <-> forall v, In v xs -> f v = v.
Proof.
  induction xs as [|x xs IH]; simpl.
  - split; [intros _ v [] | reflexivity].
  - rewrite andb_true_iff, IH, String.eqb_eq. split.
    + intros [Hx Hxs] v [<-|Hv]; [now symmetry | now apply Hxs].
    + intros H. split; [symmetry; apply H; now left|].
      intros v Hv. apply H. now right.
Qed.

Lemma injective_on_NoDup (f : string -> string) (l : list string) :
  NoDup (map f l) ->
  forall v w, In v l -> In w l -> f v = f w -> v = w.
Proof.
  induction l as [|x l IH]; intros Hnd v w Hv Hw E; [destruct Hv|].
  simpl in Hnd. inversion Hnd as [|? ? Hnot Hrest]; subst.
  destruct Hv as [<-|Hv], Hw as [<-|Hw].
  - reflexivity.
  - exfalso. apply Hnot. rewrite E. now apply in_map.
  - exfalso. apply Hnot. rewrite <- E. now apply in_map.
  - now apply IH.
Qed.

Lemma nunique_map (f : string -> string) (xs : list string) :
  nunique xs = nunique (map f xs) <->
  forall v w, In v xs -> In w xs -> f v = f w -> v = w.
Proof.
  unfold nunique.
  set (B := nodup string_dec xs). set (A := nodup string_dec (map f xs)).
  assert (HB : NoDup B) by apply NoDup_nodup.
  assert (HA : NoDup A) by apply NoDup_nodup.
  assert (HAB : incl A (map f B)).
  { intros a Ha. apply nodup_In, in_map_iff in Ha as (x & <- & Hx).
    apply in_map. now apply nodup_In. }
  assert (HBA : incl (map f B) A).
  { intros a Ha. apply in_map_iff in Ha as (x & <- & Hx).
    apply nodup_In, in_map. now apply nodup_In in Hx. }
  pose proof (NoDup_incl_length HA HAB) as Hle. rewrite length_map in Hle.
  split.
  - intros E v w Hv Hw.
    apply (injective_on_NoDup f B); [|now apply nodup_In|now apply nodup_In].
    apply (NoDup_incl_NoDup HA); [rewrite length_map; lia | exact HAB].
  - intros Hinj.
    assert (Hmap : NoDup (map f B)).
    { apply NoDup_map_NoDup_ForallPairs; [|exact HB].
      intros v w Hv Hw. apply Hinj; now apply (nodup_In string_dec). }
    pose proof (NoDup_incl_length Hmap HBA) as Hge.
    rewrite length_map in Hge. lia.
Qed.

Lemma list_max_above (n : nat) (l : list nat) :
  n < list_max l <-> exists k, In k l /\ n < k.
Proof.
  induction l as [|x l IH]; simpl.
  - split; [lia | intros (k & [] & _)].
  - split.
    + intros H. destruct (Nat.lt_ge_cases n x) as [Hx|Hx].
      * exists x. split; [now left | exact Hx].
      * assert (Hl : n < list_max l) by lia.
        apply IH in Hl as (k & Hk & Hn). exists k. split; [now right | exact Hn].
    + intros (k & [<-|Hk] & Hn); [lia|].
      assert (n < list_max l) by (apply IH; eauto). lia.
Qed.

Lemma count_empty_positive (xs : list string) :
  (0 <? count (String.eqb "") xs) = true <-> In "" xs.
Proof.
  unfold count. rewrite Nat.ltb_lt. induction xs as [|x xs IH].
  - simpl. split; [lia | intros []].
  - cbn [filter In]. destruct (String.eqb_spec "" x) as [<-|Hne].
    + cbn [length]. split; [intros _; now left | lia].
    + rewrite IH. split; [now right | intros [E|H]; [congruence | exact H]].
Qed.

Lemma string_quality_parts (xs : list string) :
  _analyze_string_quality xs
  = ((if negb (series_equals xs (map strip xs))
      then ["Leading/trailing whitespace detected - consider trimming"]
      else [])
     ++ (if negb (nunique xs =? nunique (map lower xs))
         then ["Inconsistent casing detected - standardize case if needed"]
         else [])
     ++ (if gt_n (max_nat (map String.length xs)) 1000
         then ["Very long text values detected - consider TEXT type or truncation"]
         else [])
     ++ (if 0 <? count (String.eqb "") xs
         then [("Empty strings detected ("
                  ++ fmt1 (percent (count (String.eqb "") xs) (length xs))
                  ++ "%) - standardize with nulls")%string]
         else []))%list.
Proof. reflexivity. Qed.

(** The findings on strings are reported exactly for what they name:
    whitespace when some value differs from its trimmed form, casing
    when two different values agree once lowercased, long text when
    some value has more than 1000 characters, and empty strings when
    some value is the empty string. *)
Theorem string_quality_findings (xs : list string) :
  (In "Leading/trailing whitespace detected - consider trimming"
      (_analyze_string_quality xs)
   <-> exists v, In v xs /\ strip v <> v) /\
  (In "Inconsistent casing detected - standardize case if needed"
      (_analyze_string_quality xs)
   <-> exists v w, In v xs /\ In w xs /\ v <> w /\ lower v = lower w) /\
  (In "Very long text values detected - consider TEXT type or truncation"
      (_analyze_string_quality xs)
   <-> exists v, In v xs /\ 1000 < String.length v) /\
  ((exists m, In m (_analyze_string_quality xs) /\
              starts_with "Empty strings detected (" m = true)
   <-> In "" xs).
Proof.
  rewrite string_quality_parts.
  set (pct := fmt1 _).
  assert (H1 : negb (series_equals xs (map strip xs)) = true
               <-> exists v, In v xs /\ strip v <> v).
  { rewrite negb_true_iff. split.
    - intros E.
      destruct (forallb (fun v => String.eqb (strip v) v) xs) eqn:F.
      + exfalso. rewrite forallb_forall in F.
        assert (series_equals xs (map strip xs) = true).
        { apply series_equals_map. intros v Hv. now apply String.eqb_eq, F. }
        congruence.
      + apply forallb_false_exists in F as (v & Hv & Hn).
        exists v. split; [exact Hv | now apply String.eqb_neq].
    - intros (v & Hv & Hn).
      destruct (series_equals xs (map strip xs)) eqn:E; [|reflexivity].
      exfalso. apply Hn. exact (proj1 (series_equals_map strip xs) E v Hv). }
  assert (H2 : negb (nunique xs =? nunique (map lower xs)) = true
               <-> exists v w, In v xs /\ In w xs /\ v <> w
                               /\ lower v = lower w).
  { rewrite negb_true_iff, Nat.eqb_neq, nunique_map. split.
    - intros Hn.
      destruct (forallb (fun v => forallb (fun w =>
                  negb (String.eqb (lower v) (lower w)) || String.eqb v w)
                  xs) xs) eqn:F.
      + exfalso. apply Hn. intros v w Hv Hw E.
        rewrite forallb_forall in F. specialize (F v Hv).
        rewrite forallb_forall in F. specialize (F w Hw).
        rewrite E, String.eqb_refl in F. simpl in F.
        now apply String.eqb_eq.
      + apply forallb_false_exists in F as (v & Hv & F).
        apply forallb_false_exists in F as (w & Hw & F).
        apply orb_false_iff in F as [Fa Fb].
        apply negb_false_iff, String.eqb_eq in Fa.
        apply String.eqb_neq in Fb. now exists v, w.
    - intros (v & w & Hv & Hw & Hne & E) Hinj. apply Hne. now apply Hinj. }
  assert (H3 : gt_n (max_nat (map String.length xs)) 1000 = true
               <-> exists v, In v xs /\ 1000 < String.length v).
  { rewrite max_nat_list_max. destruct xs as [|x xs'].
    - simpl. split; [discriminate | intros (v & [] & _)].
    - change (is_nil (map String.length (x :: xs'))) with false. cbv iota.
      unfold gt_n. rewrite Nat.ltb_lt, list_max_above. split.
      + intros (k & Hk & Hn). apply in_map_iff in Hk as (v & <- & Hv).
        now exists v.
      + intros (v & Hv & Hn). exists (String.length v).
        split; [now apply in_map | exact Hn]. }
  pose proof (count_empty_positive xs) as H4.
  destruct (negb (series_equals xs (map strip xs)));
    destruct (negb (nunique xs =? nunique (map lower xs)));
    destruct (gt_n (max_nat (map String.length xs)) 1000);
    destruct (0 <? count (String.eqb "") xs);
    cbn [app];
    (split; [|split; [|split]]);
    try (rewrite <- H1); try (rewrite <- H2); try (rewrite <- H3);
    try (rewrite <- H4);
    try (split; [intros _; reflexivity | intros _; simpl; tauto]);
    try (split; [simpl; intuition discriminate | discriminate]);
    try (split; [intros _; reflexivity
                | intros _; eexists; split; [simpl; eauto 6 | reflexivity]]);
    (split; [|discriminate]); intros (m & Hm & Hs); exfalso; simpl in Hm;
    repeat (destruct Hm as [<-|Hm]; [discriminate Hs|]); exact Hm.
Qed.

(** *** The finding on e-mail addresses *)

Lemma rep_class_split_all (icase : bool) (p : ascii -> bool)
    (k : bool -> string -> bool) (s : string) :
  forall lo hi bol,
    rep_class icase p lo hi bol s k = true ->
    exists a b bol', s = a ++ b /\ all_chars (in_class icase p) a = true
                     /\ k bol' b = true.
Proof.
  induction s as [|c s IH]; intros lo hi bol H; cbn [rep_class] in H.
  - rewrite orb_false_r in H. apply andb_true_iff in H as [_ H].
    exists "", "", bol. repeat split. exact H.
  - apply orb_true_iff in H as [H|H].
    + apply andb_true_iff in H as [_ H].
      exists "", (String c s), bol. repeat split. exact H.
    + apply andb_true_iff in H as [Hc H].
      apply andb_true_iff in Hc as [_ Hc].
      destruct (IH _ _ _ H) as (a & b & bol' & -> & Ha & Hb).
      exists (String c a), b, bol'. repeat split; [|exact Hb].
      simpl. now rewrite Hc, Ha.
Qed.

Lemma rep_class_prefix (icase : bool) (p : ascii -> bool)
    (k : bool -> string -> bool) (a rest : string) :
  all_chars (in_class icase p) a = true ->
  (forall b, k b rest = true) ->
  forall bol, rep_class icase p 0 None bol (a ++ rest) k = true.
Proof.
  intros Ha Hk. induction a as [|c a IH]; intros bol.
  - simpl. now apply rep_class_zero.
  - simpl in Ha. apply andb_true_iff in Ha as [Hc Ha].
    cbn [append rep_class more option_map pred]. rewrite Hc, (IH Ha).
    apply orb_true_r.
Qed.

Lemma at_sign_exact (c : ascii) :
  in_class false (Ascii.eqb "@") c = true <-> c = "@"%char.
Proof.
  unfold in_class. rewrite andb_false_l, orb_false_r.
  rewrite Ascii.eqb_eq. split; congruence.
Qed.

Lemma dot_class (s : string) :
  all_chars (in_class false dot) s = all_chars dot s.
Proof.
  induction s as [|c s IH]; simpl; [reflexivity|].
  unfold in_class at 1. now rewrite andb_false_l, orb_false_r, IH.
Qed.

Lemma two_ats_run (bol : bool) (t : string) :
  run false two_ats bol t (fun _ _ => true) = true <->
  exists b c, t = String "@" (b ++ String "@" c) /\ all_chars dot b = true.
Proof.
  unfold two_ats. cbn [seqs chr run]. split.
  - destruct t as [|x t]; [discriminate|].
    intros H. apply andb_true_iff in H as [Hx H].
    apply at_sign_exact in Hx. subst x.
    apply rep_class_split_all in H as (b & r & bol' & -> & Hb & H).
    destruct r as [|y c]; [discriminate H|].
    apply andb_true_iff in H as [Hy _]. apply at_sign_exact in Hy. subst y.
    exists b, c. split; [reflexivity | now rewrite <- dot_class].
  - intros (b & c & -> & Hb).
    rewrite (proj2 (at_sign_exact "@") eq_refl). cbn [andb].
    apply rep_class_prefix; [now rewrite dot_class|].
    intros _. now rewrite (proj2 (at_sign_exact "@") eq_refl).
Qed.

Lemma two_ats_search (s : string) :
  forall bol,
    search_from false two_ats bol s = true <->
    exists a b c, s = a ++ String "@" (b ++ String "@" c)
                  /\ all_chars dot b = true.
Proof.
  induction s as [|x s IH]; intros bol; cbn [search_from].
  - rewrite orb_false_r, two_ats_run. split.
    + intros (b & c & E & _). discriminate E.
    + intros (a & b & c & E & _). destruct a; discriminate E.
  - rewrite orb_true_iff, two_ats_run, IH. split.
    + intros [(b & c & E & Hb)|(a & b & c & E & Hb)].
      * exists "", b, c. split; [exact E | exact Hb].
      * exists (String x a), b, c. split; [simpl; now rewrite E | exact Hb].
    + intros (a & b & c & E & Hb). destruct a as [|y a].
      * left. exists b, c. split; [exact E | exact Hb].
      * right. simpl in E. inversion E; subst.
        exists a, b, c. split; [reflexivity | exact Hb].
Qed.

(** For an e-mail column the analysis reports several [@] signs
    exactly when some value holds two of them with no newline in
    between. *)
Theorem email_quality_finding (xs : list string) :
  In "Multiple @ symbols detected in some email addresses"
     (_analyze_pattern_quality xs "email")
  <->
  exists v a b c,
    In v xs /\ v = a ++ String "@" (b ++ String "@" c)
    /\ all_chars dot b = true.
Proof.
  unfold _analyze_pattern_quality. cbn [String.eqb Ascii.eqb Bool.eqb].
  cbv iota.
  destruct (existsb (re_search false two_ats) xs) eqn:E.
  - split; [intros _ | intros _; now left].
    apply existsb_exists in E as (v & Hv & Hs).
    apply two_ats_search in Hs as (a & b & c & Hs & Hb).
    now exists v, a, b, c.
  - split; [intros [] | intros (v & a & b & c & Hv & Hs & Hb)].
    assert (existsb (re_search false two_ats) xs = true); [|congruence].
    apply existsb_exists. exists v. split; [exact Hv|].
    apply two_ats_search. now exists a, b, c.
Qed.

Import DecimalLiterals.

Lemma integer_types_hold_integers_witness :
  (forall v, In v (observed_numbers shuffled_a) -> is_integral v = true) /\
  (exists v, In v (observed_numbers [Some "1.5"; Some "2"; None])
             /\ is_integral v = false).
Proof.
  split.
  - apply (proj1 (integer_types_hold_integers shuffled_a)).
    vm_compute. tauto.
  - apply (proj2 (integer_types_hold_integers [Some "1.5"; Some "2"; None])).
    vm_compute. tauto.
Defined.

Lemma string_quality_findings_witness :
  In "Inconsistent casing detected - standardize case if needed"
     (_analyze_string_quality ["Paris"; "paris"; "Rome"]).
Proof.
  apply (proj1 (proj2 (string_quality_findings ["Paris"; "paris"; "Rome"]))).
  exists "Paris", "paris". repeat split.
  - now left.
  - right; now left.
  - discriminate.
Defined.

Lemma email_quality_finding_witness :
  In "Multiple @ symbols detected in some email addresses"
     (_analyze_pattern_quality ["a@b.com"; "c@d@e.org"] "email").
Proof.
  apply (proj2 (email_quality_finding ["a@b.com"; "c@d@e.org"])).
  exists "c@d@e.org", "c", "d", "e.org". repeat split.
  right; now left.
Defined.


End QualityMore.
